(** * upload_routes: upload and result routes of the contract test backend

    A shallow embedding of [upload_routes.py] and the proofs of its
    specification.

    Conventions of the model.
    - A Python [str] is a [string]; its characters are the code points
      below 256, which is where [str.lower] and [str.strip] are modelled.
    - A path is the list of its components ([os.path.join d n] is
      [d ++ [n]] for a component [n] free of the separator); the local
      file system is a finite map from paths to node kinds, relative to the
      working directory of the server.
    - The handlers run in a state and exception monad over a [World]: the
      local file system, the state of the remote runner and the trace of
      the effects performed so far.
    - [remote_docker_api] is an external collaborator: its three operations
      are parameters of the development. *)

From Stdlib Require Import ZArith NArith Ascii String List Lia Bool.
From stdpp Require Import base decidable option list gmap strings.

Local Open Scope string_scope.
Local Open Scope list_scope.
Local Open Scope Z_scope.

(** ** Python strings *)

Module Str.

(** [str.lower] on one character. *)
Definition chr_lower (c : ascii) : ascii :=
  let n := N_of_ascii c in
  if ((65 <=? n) && (n <=? 90))%N
     || ((192 <=? n) && (n <=? 222) && negb (n =? 215))%N
  then ascii_of_N (n + 32)
  else c.

(** [s.lower()] *)
Fixpoint lower (s : string) : string :=
  match s with
  | EmptyString => EmptyString
  | String c s' => String (chr_lower c) (lower s')
  end.

(** [c.isspace()] *)
Definition isspace (c : ascii) : bool :=
  let n := N_of_ascii c in
  (((9 <=? n) && (n <=? 13)) || ((28 <=? n) && (n <=? 32))
   || (n =? 133) || (n =? 160))%N.

(** [s.lstrip()] *)
Fixpoint lstrip (s : string) : string :=
  match s with
  | EmptyString => EmptyString
  | String c s' => if isspace c then lstrip s' else s
  end.

(** [s.rstrip()] *)
Fixpoint rstrip (s : string) : string :=
  match s with
  | EmptyString => EmptyString
  | String c s' =>
      match rstrip s' with
      | EmptyString => if isspace c then EmptyString else String c EmptyString
      | r => String c r
      end
  end.

(** [s.strip()] *)
Definition strip (s : string) : string := lstrip (rstrip s).

(** [len(s)] *)
Definition len (s : string) : Z := Z.of_nat (String.length s).

(** [s.rfind(c)] for a one-character [c]: the highest index of [c], or
    [-1]. *)
Fixpoint rfind (c : ascii) (s : string) : Z :=
  match s with
  | EmptyString => -1
  | String a s' =>
      let r := rfind c s' in
      if 0 <=? r then r + 1
      else if decide (a = c) then 0 else -1
  end.

(** [s[:n]] and [s[n:]] for [0 <= n]. *)
Fixpoint take (n : nat) (s : string) : string :=
  match n, s with
  | S n', String c s' => String c (take n' s')
  | _, _ => EmptyString
  end.

Fixpoint drop (n : nat) (s : string) : string :=
  match n, s with
  | S n', String _ s' => drop n' s'
  | _, _ => s
  end.

Definition slice_to (s : string) (i : Z) : string := take (Z.to_nat i) s.
Definition slice_from (s : string) (i : Z) : string := drop (Z.to_nat i) s.

(** [s[i:i+1]] *)
Definition at_index (s : string) (i : Z) : string :=
  take 1 (drop (Z.to_nat i) s).

(** [s.split(sep)] for a one-character separator. *)
Fixpoint split (sep : ascii) (s : string) : list string :=
  match s with
  | EmptyString => [EmptyString]
  | String a s' =>
      if decide (a = sep) then EmptyString :: split sep s'
      else match split sep s' with
           | h :: t => String a h :: t
           | [] => [String a EmptyString]
           end
  end.

(** [s.startswith(p)] *)
Fixpoint startswith (s p : string) {struct p} : bool :=
  match p, s with
  | EmptyString, _ => true
  | String a p', String b s' => bool_decide (a = b) && startswith s' p'
  | String _ _, EmptyString => false
  end.

(** Every character of [s] is white space. *)
Fixpoint all_space (s : string) : bool :=
  match s with
  | EmptyString => true
  | String c s' => isspace c && all_space s'
  end.

(** [c in s] for a one-character [c]. *)
Fixpoint contains (c : ascii) (s : string) : bool :=
  match s with
  | EmptyString => false
  | String a s' => bool_decide (a = c) || contains c s'
  end.

End Str.

(** ** [os.path] (POSIX flavour) *)

Module posixpath.

(** The loop of [genericpath._splitext] that skips the leading dots of
    the last component: [true] when a character other than the extension
    separator stands in [p[filenameIndex:dotIndex]]. *)
Fixpoint has_non_dot (p : string) (filenameIndex : Z) (steps : nat) : bool :=
  match steps with
  | O => false
  | S steps' =>
      if negb (String.eqb (Str.at_index p filenameIndex) ".") then true
      else has_non_dot p (filenameIndex + 1) steps'
  end.

(** [os.path.splitext(p)] *)
Definition splitext (p : string) : string * string :=
  let sepIndex := Str.rfind "/" p in
  let dotIndex := Str.rfind "." p in
  if (sepIndex <? dotIndex)
     && has_non_dot p (sepIndex + 1) (Z.to_nat (dotIndex - (sepIndex + 1)))
  then (Str.slice_to p dotIndex, Str.slice_from p dotIndex)
  else (p, EmptyString).

End posixpath.

(** ** [pathlib.PurePosixPath] *)

Module pathlib.

(** The parts of the path after its root: the components between
    separators, without the empty ones and the ["."] ones. *)
Definition tail_parts (path : string) : list string :=
  filter (fun x => x ≠ EmptyString ∧ x ≠ ".") (Str.split "/" path).

(** [Path(path).name]: the final component, if any. *)
Definition name (path : string) : string :=
  List.last (tail_parts path) EmptyString.

(** [Path(path).stem]: the final component without its suffix (a name
    that ends in a dot has no suffix, as in CPython up to 3.13). *)
Definition stem (path : string) : string :=
  let name := name path in
  let i := Str.rfind "." name in
  if (0 <? i) && (i <? Str.len name - 1) then Str.slice_to name i else name.

End pathlib.

(** ** [fnmatch]: shell patterns *)

Module fnmatch.

(** One element of a translated pattern.  A bracket expression keeps the
    chunks [fnmatch.translate] joins with range hyphens: two neighbouring
    chunks contribute the range from the last character of the first to
    the first character of the second, every other character stands for
    itself. *)
Inductive token :=
| STAR
| ANY
| LIT (c : ascii)
| SET (negate : bool) (chunks : list string).

Global Instance token_eq_dec : EqDecision token.
Proof. solve_decision. Defined.

Fixpoint find_go (c : ascii) (s : string) (idx start stop : Z) : Z :=
  match s with
  | EmptyString => -1
  | String a s' =>
      if (start <=? idx) && (idx <? stop) && bool_decide (a = c) then idx
      else find_go c s' (idx + 1) start stop
  end.

(** [s.find(c, start, stop)] *)
Definition find (c : ascii) (s : string) (start stop : Z) : Z :=
  find_go c s 0 start stop.

Definition slice (s : string) (i j : Z) : string :=
  Str.take (Z.to_nat (j - i)) (Str.drop (Z.to_nat i) s).

Definition first_chr (s : string) : option ascii :=
  match s with String c _ => Some c | EmptyString => None end.

Fixpoint last_chr (s : string) : option ascii :=
  match s with
  | EmptyString => None
  | String c EmptyString => Some c
  | String _ s' => last_chr s'
  end.

Fixpoint drop_last (s : string) : string :=
  match s with
  | EmptyString => EmptyString
  | String _ EmptyString => EmptyString
  | String c s' => String c (drop_last s')
  end.

Definition chr_lt (a b : ascii) : bool := (N_of_ascii a <? N_of_ascii b)%N.
Definition chr_le (a b : ascii) : bool := (N_of_ascii a <=? N_of_ascii b)%N.

(** The loop that cuts the text of a bracket expression at its range
    hyphens: [i] is the start of the current chunk, [k] where the search
    for the next hyphen starts, [j] the closing bracket. *)
Fixpoint cut_chunks (fuel : nat) (pat : string) (i k j : Z)
    (chunks : list string) : list string * Z :=
  match fuel with
  | O => (chunks, i)
  | S fuel' =>
      let k' := find "-" pat k j in
      if k' <? 0 then (chunks, i)
      else cut_chunks fuel' pat (k' + 1) (k' + 3) j (chunks ++ [slice pat i k'])
  end.

Definition append_to_last (chunks : list string) (c : string) : list string :=
  match reverse chunks with
  | l :: r => reverse r ++ [l +:+ c]
  | [] => []
  end.

(** Empty ranges (the start after the end) are removed, from the right. *)
Fixpoint remove_empty_ranges (chunks : list string) : list string :=
  match chunks with
  | [] => []
  | c :: rest =>
      match remove_empty_ranges rest with
      | [] => [c]
      | d :: t =>
          match last_chr c, first_chr d with
          | Some x, Some y =>
              if chr_lt y x then (drop_last c +:+ Str.drop 1 d) :: t
              else c :: d :: t
          | _, _ => c :: d :: t
          end
      end
  end.

(** The chunks of the bracket expression [pat[0:j]]. *)
Definition chunks_of (pat : string) (j : Z) : list string :=
  let stuff := slice pat 0 j in
  if negb (Str.contains "-" stuff) then [stuff]
  else
    let k := if bool_decide (first_chr pat = Some "!"%char) then 2 else 1 in
    let '(chunks, i) := cut_chunks (String.length pat) pat 0 k j [] in
    let chunk := slice pat i j in
    let chunks :=
      if bool_decide (chunk = EmptyString) then append_to_last chunks "-"
      else chunks ++ [chunk] in
    remove_empty_ranges chunks.

(** A bracket expression at the head of [pat] (the text after the opening
    bracket): its token and the rest of the pattern, or [None] when no
    bracket closes it. *)
Definition bracket (pat : string) : option (token * string) :=
  let n := Str.len pat in
  let j := 0 in
  let j := if bool_decide (first_chr (Str.drop (Z.to_nat j) pat) = Some "!"%char)
           then j + 1 else j in
  let j := if bool_decide (first_chr (Str.drop (Z.to_nat j) pat) = Some "]"%char)
           then j + 1 else j in
  let j := let r := find "]" pat j n in if r <? 0 then n else r in
  if n <=? j then None
  else
    let chunks := chunks_of pat j in
    let tok :=
      match chunks with
      | String "!" c :: t => SET true (c :: t)
      | _ => SET false chunks
      end in
    Some (tok, Str.drop (Z.to_nat (j + 1)) pat).

Fixpoint translate_go (fuel : nat) (pat : string) (res : list token)
    : list token :=
  match fuel, pat with
  | S fuel', String c rest =>
      if bool_decide (c = "*"%char) then
        (* consecutive stars are compressed into one *)
        match reverse res with
        | STAR :: _ => translate_go fuel' rest res
        | _ => translate_go fuel' rest (res ++ [STAR])
        end
      else if bool_decide (c = "?"%char) then
        translate_go fuel' rest (res ++ [ANY])
      else if bool_decide (c = "["%char) then
        match bracket rest with
        | None => translate_go fuel' rest (res ++ [LIT "["])
        | Some (tok, rest') => translate_go fuel' rest' (res ++ [tok])
        end
      else translate_go fuel' rest (res ++ [LIT c])
  | _, _ => res
  end.

(** [fnmatch.translate(pat)], as tokens rather than as the text of a
    regular expression. *)
Definition translate (pat : string) : list token :=
  translate_go (String.length pat) pat [].

Fixpoint in_ranges (c : ascii) (chunks : list string) : bool :=
  match chunks with
  | a :: ((b :: _) as rest) =>
      match last_chr a, first_chr b with
      | Some lo, Some hi => (chr_le lo c && chr_le c hi) || in_ranges c rest
      | _, _ => in_ranges c rest
      end
  | _ => false
  end.

Definition in_set (c : ascii) (chunks : list string) : bool :=
  existsb (Str.contains c) chunks || in_ranges c chunks.

(** The whole of [s] matches the tokens. *)
Fixpoint matches (ts : list token) (s : string) : bool :=
  match ts with
  | [] => bool_decide (s = EmptyString)
  | STAR :: ts' =>
      (fix star (s : string) : bool :=
         matches ts' s
         || match s with
            | EmptyString => false
            | String _ s' => star s'
            end) s
  | ANY :: ts' =>
      match s with
      | String _ s' => matches ts' s'
      | EmptyString => false
      end
  | LIT c :: ts' =>
      match s with
      | String a s' => bool_decide (a = c) && matches ts' s'
      | EmptyString => false
      end
  | SET negate chunks :: ts' =>
      match s with
      | String a s' => xorb negate (in_set a chunks) && matches ts' s'
      | EmptyString => false
      end
  end.

(** [fnmatch.fnmatchcase(name, pat)]; on POSIX [fnmatch.filter] keeps the
    names for which it holds. *)
Definition fnmatchcase (name pat : string) : bool :=
  matches (translate pat) name.

Definition filter (names : list string) (pat : string) : list string :=
  List.filter (fun name => fnmatchcase name pat) names.

End fnmatch.

(** ** Exceptions, outcomes and JSON values *)

Inductive oserror :=
| FileExistsError
| FileNotFoundError
| NotADirectoryError
| IsADirectoryError.

(** The exceptions a handler can see.  An exception that escapes
    [remote_docker_api] is kept apart from the ones raised here. *)
Inductive exn :=
| HTTPException (status_code : Z) (detail : string)
| OSError (e : oserror) (path : list string)
| RemoteError (what : string).

Inductive outcome (A : Type) :=
| Returns (a : A)
| Raises (e : exn).
Arguments Returns {A} a.
Arguments Raises {A} e.

#[local] Unset Elimination Schemes.
Inductive json :=
| JNull
| JStr (s : string)
| JNum (n : Z)
| JList (l : list json)
| JObj (members : list (string * json)).
#[local] Set Elimination Schemes.

(** ** The local file system *)

Inductive node := File | Dir.

Global Instance node_eq_dec : EqDecision node.
Proof. solve_decision. Defined.

Global Instance oserror_eq_dec : EqDecision oserror.
Proof. solve_decision. Defined.

Abbreviation FS := (gmap (list string) node).

Module os.

(** [os.path.join(d, n)] on component lists. *)
Definition path_join (d : list string) (n : string) : list string := d ++ [n].

(** [os.path.split(p)]: head and tail. *)
Definition path_split (p : list string) : list string * option string :=
  (removelast p, List.last (Some <$> p) None).

(** The working directory is a directory. *)
Definition path_isdir (fs : FS) (p : list string) : bool :=
  bool_decide (p = [] ∨ fs !! p = Some Dir).

Definition path_exists (fs : FS) (p : list string) : bool :=
  bool_decide (p = [] ∨ is_Some (fs !! p)).

(** [os.mkdir(p)] *)
Definition mkdir (p : list string) (fs : FS) : FS * outcome unit :=
  let parent := removelast p in
  if bool_decide (p = []) then (fs, Raises (OSError FileNotFoundError p))
  else if negb (path_exists fs parent) then
    (fs, Raises (OSError FileNotFoundError p))
  else if negb (path_isdir fs parent) then
    (fs, Raises (OSError NotADirectoryError p))
  else if path_exists fs p then (fs, Raises (OSError FileExistsError p))
  else (<[p := Dir]> fs, Returns tt).

(** [os.makedirs(name, exist_ok=True)], by recursion on the reversed
    path: the missing ancestors are created first, and an error of
    [mkdir] is raised again unless the directory is there. *)
Fixpoint makedirs_rev (rname : list string) (fs : FS) : FS * outcome unit :=
  let name := reverse rname in
  let '(fs, below) :=
    match rname with
    | _ :: ((_ :: _) as rhead) =>
        if negb (path_exists fs (reverse rhead)) then
          match makedirs_rev rhead fs with
          | (fs', Raises (OSError FileExistsError _)) => (fs', Returns tt)
          | r => r
          end
        else (fs, Returns tt)
    | _ => (fs, Returns tt)
    end in
  match below with
  | Raises e => (fs, Raises e)
  | Returns _ =>
      match mkdir name fs with
      | (fs', Raises e) =>
          if negb (path_isdir fs' name) then (fs', Raises e)
          else (fs', Returns tt)
      | r => r
      end
  end.

Definition makedirs (name : list string) (fs : FS) : FS * outcome unit :=
  makedirs_rev (reverse name) fs.

(** [os.remove(p)]: only a regular file can be removed. *)
Definition remove (p : list string) (fs : FS) : FS * outcome unit :=
  match fs !! p with
  | Some File => (delete p fs, Returns tt)
  | Some Dir => (fs, Raises (OSError IsADirectoryError p))
  | None => (fs, Raises (OSError FileNotFoundError p))
  end.

(** The name [n] when [p] is [d ++ [n]]. *)
Fixpoint child_name (d p : list string) : option string :=
  match d, p with
  | [], [n] => Some n
  | a :: d', b :: p' => if decide (a = b) then child_name d' p' else None
  | _, _ => None
  end.

(** [os.listdir(d)], empty when [d] is no directory (as [glob] takes
    it). *)
Definition listdir (fs : FS) (d : list string) : list string :=
  if path_isdir fs d
  then omap (fun e => child_name d e.1) (map_to_list fs)
  else [].

End os.

(** ** [glob] *)

Module glob.

Definition magic_chars : string := "*?[".

(** [glob.has_magic(s)] *)
Fixpoint has_magic (s : string) : bool :=
  match s with
  | EmptyString => false
  | String c s' => Str.contains c magic_chars || has_magic s'
  end.

(** [glob._ishidden(name)] *)
Definition ishidden (name : string) : bool := Str.startswith name ".".

(** [glob._glob1(dirname, pattern)]: the names of [dirname] that match
    [pattern]; a pattern that is not hidden does not see hidden names. *)
Definition glob1 (fs : FS) (dirname : list string) (pattern : string)
    : list string :=
  let names := os.listdir fs dirname in
  let names :=
    if negb (ishidden pattern) then List.filter (fun x => negb (ishidden x)) names
    else names in
  fnmatch.filter names pattern.

(** [glob._glob0(dirname, basename)]: a name without magic is looked
    up. *)
Definition glob0 (fs : FS) (dirname : list string) (basename : string)
    : list string :=
  if os.path_exists fs (os.path_join dirname basename) then [basename] else [].

(** [glob.glob(pathname)] for a path name whose directory part is
    literal, which it is in every call of this program. *)
Definition glob (fs : FS) (pathname : list string) : list (list string) :=
  match os.path_split pathname with
  | (dirname, Some basename) =>
      let glob_in_dir := if has_magic basename then glob1 else glob0 in
      os.path_join dirname <$> glob_in_dir fs dirname basename
  | (_, None) => []
  end.

End glob.

(** ** The world of a request and the monad of the handlers *)

(** An uploaded file: [UploadFile.filename] and the bytes its [read]
    yields. *)
Record UploadFile := {
  filename : string;
  file_bytes : list Byte.byte;
}.

(** The effects a handler performs, with what they were called on and, for
    the remote runner, what came back. *)
Inductive event :=
| EvMakedirs (path : list string)
| EvRemove (path : list string)
| EvRead (name : string)
| EvUpload (contents : list Byte.byte) (name type : string) (result : string + unit)
| EvTrigger (name type : string) (result : string + json)
| EvFetch (name type : string) (result : string + json).

Record World (R : Type) := {
  fs : FS;
  remote : R;
  trace : list event;
}.
Arguments fs {R} w.
Arguments remote {R} w.
Arguments trace {R} w.

Definition M (R A : Type) : Type := World R -> World R * outcome A.

Definition ret {R A : Type} (a : A) : M R A := fun w => (w, Returns a).

Definition raise {R A : Type} (e : exn) : M R A := fun w => (w, Raises e).

Definition bind {R A B : Type} (m : M R A) (k : A -> M R B) : M R B :=
  fun w =>
    match m w with
    | (w', Returns a) => k a w'
    | (w', Raises e) => (w', Raises e)
    end.

Notation "'do' x <- m ; k" := (bind m (fun x => k))
  (at level 10, x name, m at level 100, k at level 200).

(** [try: m except Exception: pass] *)
Definition try_pass {R : Type} (m : M R unit) : M R unit :=
  fun w : World R =>
    match m w with
    | (w', Raises _) => (w', Returns tt)
    | r => r
    end.

(** [for x in l: body(x)] *)
Fixpoint for_each {R A : Type} (l : list A) (body : A -> M R unit) : M R unit :=
  match l with
  | [] => ret tt
  | x :: l' => do _ <- body x; for_each l' body
  end.

Definition log {R : Type} (e : event) : M R unit :=
  fun w : World R => ({| fs := fs w; remote := remote w; trace := trace w ++ [e] |},
            Returns tt).

(** A file system operation, lifted to the world. *)
Definition on_fs {R A : Type} (op : FS -> FS * outcome A) : M R A :=
  fun w : World R =>
    let '(fs', r) := op (fs w) in
    ({| fs := fs'; remote := remote w; trace := trace w |}, r).

Definition os_makedirs {R : Type} (name : list string) : M R unit :=
  do _ <- log (EvMakedirs name); on_fs (os.makedirs name).

Definition os_remove {R : Type} (p : list string) : M R unit :=
  do _ <- log (EvRemove p); on_fs (os.remove p).

Definition glob_glob {R : Type} (pathname : list string) : M R (list (list string)) :=
  fun w : World R => (w, Returns (glob.glob (fs w) pathname)).

(** [await contract_file.read()] *)
Definition read {R : Type} (contract_file : UploadFile) : M R (list Byte.byte) :=
  do _ <- log (EvRead (filename contract_file)); ret (file_bytes contract_file).

(** [JSONResponse(content, headers)]; the status code is the default one. *)
Record JSONResponse := {
  status_code : Z;
  content : json;
  headers : list (string * string);
}.

Definition JSONResponse_new (content : json) (headers : list (string * string))
    : JSONResponse :=
  {| status_code := 200; content := content; headers := headers |}.

(** ** The routes *)

Definition ALLOWED_EVM_EXTENSIONS : gset string := {[ ".sol"; ".txt" ]}.
Definition ALLOWED_NON_EVM_EXTENSIONS : gset string := {[ ".rs"; ".wasm" ]}.

Section Routes.

(** The state of the remote runner and the three operations of
    [remote_docker_api]; [inl] is an exception raised by the operation. *)
Context {R : Type}.
Variable remote_upload :
  list Byte.byte -> string -> string -> R -> R * (string + unit).
Variable remote_trigger : string -> string -> R -> R * (string + json).
Variable remote_fetch : string -> string -> R -> R * (string + json).

(** A call of the remote runner: the operation runs on the remote state,
    the call and its result are traced, and an exception propagates. *)
Definition call_remote {A : Type} (op : R -> R * (string + A))
    (ev : string + A -> event) : M R A :=
  fun w : World R =>
    let '(r', res) := op (remote w) in
    ({| fs := fs w; remote := r'; trace := trace w ++ [ev res] |},
     match res with
     | inl what => Raises (RemoteError what)
     | inr a => Returns a
     end).

Definition upload_to_remote_container_memory (contents : list Byte.byte)
    (name type : string) : M R unit :=
  call_remote (remote_upload contents name type) (EvUpload contents name type).

Definition trigger_docker_test (name type : string) : M R json :=
  call_remote (remote_trigger name type) (EvTrigger name type).

Definition fetch_from_remote_container (name type : string) : M R json :=
  call_remote (remote_fetch name type) (EvFetch name type).

Definition validate_extension (filename : string)
    (allowed_extensions : gset string) : M R unit :=
  let ext := Str.lower (posixpath.splitext filename).2 in
  if decide (ext ∉ allowed_extensions) then
    raise (HTTPException 400 ("File type " +:+ ext +:+ " not allowed."))
  else ret tt.

Definition cleanup_old_artifacts (contract_name contract_type : string)
    : M R unit :=
  let local_input_dir := os.path_join ["uploaded_contracts"] contract_type in
  let local_report_dir := os.path_join ["test_summaries"] contract_type in
  do _ <- os_makedirs local_input_dir;
  do _ <- os_makedirs local_report_dir;
  for_each
    [ os.path_join local_input_dir (contract_name +:+ "*");
      os.path_join local_report_dir (contract_name +:+ "*") ]
    (fun pattern =>
       do files <- glob_glob pattern;
       for_each files (fun file => try_pass (os_remove file))).

Definition process_evm_contract (file_contents : list Byte.byte)
    (filename : string) : json :=
  JObj [ ("contract_type", JStr "evm");
         ("filename", JStr filename);
         ("status", JStr "processed") ].

Definition process_non_evm_contract (file_contents : list Byte.byte)
    (filename : string) : json :=
  JObj [ ("contract_type", JStr "non-evm");
         ("filename", JStr filename);
         ("status", JStr "processed") ].

Definition upload_evm_contract (contract_file : UploadFile)
    : M R JSONResponse :=
  do _ <- validate_extension (filename contract_file) ALLOWED_EVM_EXTENSIONS;
  let base_name :=
    Str.lower (Str.strip (pathlib.stem (filename contract_file))) in
  do _ <- cleanup_old_artifacts base_name "evm";
  do contents <- read contract_file;
  do _ <- upload_to_remote_container_memory contents (filename contract_file) "evm";
  do logs <- trigger_docker_test (filename contract_file) "evm";
  let report_filename := base_name +:+ "-report.md" in
  do aggregated_content <- fetch_from_remote_container report_filename "evm";
  let result := process_evm_contract contents (filename contract_file) in
  ret (JSONResponse_new
         (JObj [ ("message", JStr "EVM contract processed");
                 ("filename", JStr (filename contract_file));
                 ("docker_logs", logs);
                 ("aggregated_report", aggregated_content);
                 ("details", result) ])
         []).

Definition upload_non_evm_contract (contract_file : UploadFile)
    : M R JSONResponse :=
  do _ <- validate_extension (filename contract_file) ALLOWED_NON_EVM_EXTENSIONS;
  let base_name :=
    Str.lower (Str.strip (pathlib.stem (filename contract_file))) in
  do _ <- cleanup_old_artifacts base_name "non-evm";
  do contents <- read contract_file;
  do _ <- upload_to_remote_container_memory contents (filename contract_file) "non-evm";
  do logs <- trigger_docker_test (filename contract_file) "non-evm";
  let report_filename := base_name +:+ "-report.md" in
  do aggregated_content <- fetch_from_remote_container report_filename "non-evm";
  let result := process_non_evm_contract contents (filename contract_file) in
  ret (JSONResponse_new
         (JObj [ ("message", JStr "Non-EVM contract processed");
                 ("filename", JStr (filename contract_file));
                 ("docker_logs", logs);
                 ("aggregated_report", aggregated_content);
                 ("details", result) ])
         []).

Definition no_cache_headers : list (string * string) :=
  [ ("Cache-Control", "no-store, no-cache, must-revalidate, max-age=0") ].

Definition get_test_results (filename : string) : M R JSONResponse :=
  let base := Str.lower (Str.strip (pathlib.stem filename)) in
  let report_filename := base +:+ "-report.md" in
  do aggregated <- fetch_from_remote_container report_filename "evm";
  ret (JSONResponse_new
         (JObj [ ("filename", JStr filename);
                 ("aggregated_report", aggregated) ])
         no_cache_headers).

Definition get_non_evm_test_results (filename : string) : M R JSONResponse :=
  let base := Str.lower (Str.strip (pathlib.stem filename)) in
  let report_filename := base +:+ "-report.md" in
  do aggregated <- fetch_from_remote_container report_filename "non-evm";
  ret (JSONResponse_new
         (JObj [ ("filename", JStr filename);
                 ("aggregated_report", aggregated) ])
         no_cache_headers).

End Routes.

(** ** A remote runner and a file system for the examples *)

Module Sample.

(** The runner keeps the names of the uploaded files, answers a test
    trigger with a log line and serves a report text for every name. *)
Definition upload (contents : list Byte.byte) (name type : string)
    (r : list string) : list string * (string + unit) :=
  (r ++ [name], inr tt).

Definition trigger (name type : string) (r : list string)
    : list string * (string + json) :=
  (r, inr (JStr ("tested " +:+ name))).

Definition fetch (name type : string) (r : list string)
    : list string * (string + json) :=
  (r, inr (JStr ("# " +:+ name))).

(** Stored artifacts of two contracts, a hidden file and a directory. *)
Definition files : FS :=
  list_to_map
    [ (["uploaded_contracts"], Dir);
      (["uploaded_contracts"; "evm"], Dir);
      (["uploaded_contracts"; "evm"; "mytoken.sol"], File);
      (["uploaded_contracts"; "evm"; "mytoken_old"], Dir);
      (["uploaded_contracts"; "evm"; "other.sol"], File);
      (["uploaded_contracts"; "evm"; ".gitkeep"], File);
      (["test_summaries"], Dir);
      (["test_summaries"; "evm"], Dir);
      (["test_summaries"; "evm"; "mytoken-report.md"], File);
      (["test_summaries"; "evm"; "other-report.md"], File) ].

Definition world : World (list string) :=
  {| fs := files; remote := []; trace := [] |}.

(** An uploaded contract. *)
Definition contract : UploadFile :=
  {| filename := "MyToken.sol";
     file_bytes := String.list_byte_of_string "contract MyToken {}" |}.

Definition empty_world : World (list string) :=
  {| fs := ∅; remote := []; trace := [] |}.

(** A working directory in which [uploaded_contracts] is a regular
    file. *)
Definition blocked_world : World (list string) :=
  {| fs := {[ ["uploaded_contracts"] := File ]}; remote := []; trace := [] |}.

End Sample.

(** ** Notions used in the statements *)

(** A character that lowering neither produces nor changes. *)
Definition case_free (c : ascii) : Prop :=
  forall a, Str.chr_lower a = c <-> a = c.

(** The characters of a name as literal tokens. *)
Fixpoint lits (s : string) : list fnmatch.token :=
  match s with
  | EmptyString => []
  | String c s' => fnmatch.LIT c :: lits s'
  end.

(** The file system after [os.remove] was tried on each path in turn, its
    failures ignored. *)
Definition remove_files (files : list (list string)) (fs : FS) : FS :=
  foldl (fun fs p => (os.remove p fs).1) fs files.

(** One file system only adds directories to another. *)
Definition adds_dirs (fs fs' : FS) : Prop :=
  forall q, fs' !! q = fs !! q \/ (fs !! q = None /\ fs' !! q = Some Dir).

Definition is_fs_event (e : event) : bool :=
  match e with
  | EvMakedirs _ | EvRemove _ => true
  | _ => false
  end.

(** The names [glob] selects in a directory for the pattern [name*]. *)
Definition glob_hit (name n : string) : bool :=
  (negb (glob.ishidden n) || glob.ishidden name)
  && fnmatch.fnmatchcase n (name +:+ "*").

(** [q] is the entry [n] of one of the two artifact directories of a
    contract type. *)
Definition artifact_entry (type : string) (q : list string) (n : string) : Prop :=
  q = ["uploaded_contracts"; type; n] \/ q = ["test_summaries"; type; n].


Definition artifact_name (type : string) (q : list string) : option string :=
  match q with
  | [d; t; n] =>
      if bool_decide ((d = "uploaded_contracts" \/ d = "test_summaries")
                      /\ t = type)
      then Some n else None
  | _ => None
  end.

(** The entries the cleanup for the base name [name] tries to remove. *)
Definition cleanup_target (name type : string) (q : list string) : bool :=
  match artifact_name type q with
  | Some n => glob_hit name n
  | None => false
  end.

(** The base name and the report name the handlers derive from a file
    name. *)
Definition base_name (filename : string) : string :=
  Str.lower (Str.strip (pathlib.stem filename)).

Definition report_filename (filename : string) : string :=
  base_name filename +:+ "-report.md".

(** The extension the validation tests. *)
Definition tested_extension (filename : string) : string :=
  Str.lower (posixpath.splitext filename).2.

(** A request is rejected when it ends in the client error. *)
Definition rejected {A : Type} (r : outcome A) : Prop :=
  exists detail, r = Raises (HTTPException 400 detail).

(** Members of a JSON object. *)
Definition keys (j : json) : list string :=
  match j with
  | JObj members => members.*1
  | _ => []
  end.

Definition member (key : string) (j : json) : option json :=
  match j with
  | JObj members =>
      snd <$> List.find (fun kv => String.eqb kv.1 key) members
  | _ => None
  end.

Section Pipeline.

Context {R : Type}.
Variable remote_upload :
  list Byte.byte -> string -> string -> R -> R * (string + unit).
Variable remote_trigger : string -> string -> R -> R * (string + json).
Variable remote_fetch : string -> string -> R -> R * (string + json).

(** The body the two upload handlers share. *)
Definition upload_pipeline (allowed : gset string) (type message : string)
    (process : list Byte.byte -> string -> json) (contract_file : UploadFile)
    : M R JSONResponse :=
  do _ <- validate_extension (filename contract_file) allowed;
  let base_name :=
    Str.lower (Str.strip (pathlib.stem (filename contract_file))) in
  do _ <- cleanup_old_artifacts base_name type;
  do contents <- read contract_file;
  do _ <- upload_to_remote_container_memory remote_upload contents
            (filename contract_file) type;
  do logs <- trigger_docker_test remote_trigger (filename contract_file) type;
  let report_filename := base_name +:+ "-report.md" in
  do aggregated_content <-
    fetch_from_remote_container remote_fetch report_filename type;
  let result := process contents (filename contract_file) in
  ret (JSONResponse_new
         (JObj [ ("message", JStr message);
                 ("filename", JStr (filename contract_file));
                 ("docker_logs", logs);
                 ("aggregated_report", aggregated_content);
                 ("details", result) ])
         []).

(** The body the two result handlers share. *)
Definition results_pipeline (type filename : string) : M R JSONResponse :=
  let base := Str.lower (Str.strip (pathlib.stem filename)) in
  let report_filename := base +:+ "-report.md" in
  do aggregated <- fetch_from_remote_container remote_fetch report_filename type;
  ret (JSONResponse_new
         (JObj [ ("filename", JStr filename);
                 ("aggregated_report", aggregated) ])
         no_cache_headers).

(** What the three calls of the remote runner answer when they are made
    one after the other from the remote state [r]. *)
Definition upload_answer (type : string) (up : UploadFile) (r : R)
    : R * (string + unit) :=
  remote_upload (file_bytes up) (filename up) type r.

Definition trigger_answer (type : string) (up : UploadFile) (r : R)
    : R * (string + json) :=
  remote_trigger (filename up) type (upload_answer type up r).1.

Definition fetch_answer (type : string) (up : UploadFile) (r : R)
    : R * (string + json) :=
  remote_fetch (report_filename (filename up)) type (trigger_answer type up r).1.

(** The steps of an upload after the cleanup, in their order. *)
Definition upload_steps (type : string) (up : UploadFile) (r : R)
    : list event :=
  [ EvRead (filename up);
    EvUpload (file_bytes up) (filename up) type (upload_answer type up r).2;
    EvTrigger (filename up) type (trigger_answer type up r).2;
    EvFetch (report_filename (filename up)) type (fetch_answer type up r).2 ].

(** The body of a successful upload. *)
Definition upload_body (message : string) (up : UploadFile)
    (logs report details : json) : json :=
  JObj [ ("message", JStr message);
         ("filename", JStr (filename up));
         ("docker_logs", logs);
         ("aggregated_report", report);
         ("details", details) ].

End Pipeline.

(** The two families of routes. *)
Inductive route := Evm | NonEvm.

Definition route_type (k : route) : string :=
  match k with Evm => "evm" | NonEvm => "non-evm" end.

Definition route_allowed (k : route) : gset string :=
  match k with
  | Evm => ALLOWED_EVM_EXTENSIONS
  | NonEvm => ALLOWED_NON_EVM_EXTENSIONS
  end.

Definition route_message (k : route) : string :=
  match k with
  | Evm => "EVM contract processed"
  | NonEvm => "Non-EVM contract processed"
  end.

Definition route_process (k : route) : list Byte.byte -> string -> json :=
  match k with
  | Evm => process_evm_contract
  | NonEvm => process_non_evm_contract
  end.

Section Handlers.

Context {R : Type}.
Variable remote_upload :
  list Byte.byte -> string -> string -> R -> R * (string + unit).
Variable remote_trigger : string -> string -> R -> R * (string + json).
Variable remote_fetch : string -> string -> R -> R * (string + json).

(** POST /upload-evm and POST /upload-non-evm *)
Definition upload_handler (k : route) : UploadFile -> M R JSONResponse :=
  match k with
  | Evm => upload_evm_contract remote_upload remote_trigger remote_fetch
  | NonEvm => upload_non_evm_contract remote_upload remote_trigger remote_fetch
  end.

(** GET /results/{filename} and GET /results/non-evm/{filename} *)
Definition results_handler (k : route) : string -> M R JSONResponse :=
  match k with
  | Evm => get_test_results remote_fetch
  | NonEvm => get_non_evm_test_results remote_fetch
  end.

End Handlers.

(** The events a run added to the trace. *)
Definition new_events {R : Type} (w w' : World R) : list event :=
  drop (length (trace w)) (trace w').

(** An operation of the remote runner returned. *)
Definition returned {A : Type} (r : string + A) : Prop :=
  exists a, r = inr a.

(** ** Notions used in the further properties *)

(** The entries [glob] selects in the artifact directories for the pattern
    [name*], spelled out: the name matches the pattern, and a hidden name
    is seen only by a hidden pattern. *)
Definition selected (name type : string) (q : list string) : Prop :=
  exists n, artifact_entry type q n
    /\ fnmatch.fnmatchcase n (name +:+ "*") = true
    /\ (glob.ishidden n = true -> glob.ishidden name = true).

(** The directories a cleanup for a contract type may create. *)
Definition artifact_dirs (type : string) : list (list string) :=
  [ ["uploaded_contracts"]; ["uploaded_contracts"; type];
    ["test_summaries"]; ["test_summaries"; type] ].

(** Every character of [s] is [c]. *)
Fixpoint all_chr (c : ascii) (s : string) : bool :=
  match s with
  | EmptyString => true
  | String a s' => bool_decide (a = c) && all_chr c s'
  end.

(** * Facts about the string operations *)

Section StrFacts.
Import Str.

Lemma case_free_slash : case_free "/".
Proof.
  intros [[] [] [] [] [] [] [] []]; vm_compute; split; intros H;
    first [reflexivity | discriminate H].
Qed.





Lemma lower_app s t : lower (s +:+ t) = lower s +:+ lower t.
Proof. induction s as [|c s IH]; simpl; [done|]. by rewrite IH. Qed.

Lemma length_lower s : String.length (lower s) = String.length s.
Proof. induction s as [|c s IH]; simpl; [done|]. by rewrite IH. Qed.


















(** [strip] removes any run of white space around a text. *)
Lemma lstrip_blank_app ws s : all_space ws = true -> lstrip (ws +:+ s) = lstrip s.
Proof.
  induction ws as [|c ws IH]; simpl; [done|].
  intros [Hc Hws]%andb_prop. rewrite Hc. auto.
Qed.





(** A base name has no path separator: the last part of a glob pattern
    built from it is one component. *)
Lemma contains_take c n s : contains c s = false -> contains c (take n s) = false.
Proof.
  revert s. induction n as [|n IH]; intros [|a s]; simpl; try done.
  intros [Ha Hs]%orb_false_elim. by rewrite Ha, IH.
Qed.

Lemma contains_lstrip c s : contains c s = false -> contains c (lstrip s) = false.
Proof.
  induction s as [|a s IH]; simpl; [done|].
  intros [Ha Hs]%orb_false_elim. destruct (isspace a); [auto|].
  simpl. by rewrite Ha, Hs.
Qed.

Lemma contains_rstrip c s : contains c s = false -> contains c (rstrip s) = false.
Proof.
  induction s as [|a s IH]; simpl; [done|].
  intros [Ha Hs]%orb_false_elim. specialize (IH Hs).
  destruct (rstrip s).
  - destruct (isspace a); simpl; [done|]. by rewrite Ha.
  - simpl in *. by rewrite Ha, IH.
Qed.

Lemma contains_lower c s : case_free c -> contains c (lower s) = contains c s.
Proof.
  intros Hc. induction s as [|a s IH]; simpl; [done|].
  rewrite IH. f_equal. apply bool_decide_ext. apply Hc.
Qed.

Lemma split_parts_free c s x : x ∈ split c s -> contains c x = false.
Proof.
  revert x. induction s as [|a s IH]; simpl; intros x.
  - by intros ->%list_elem_of_singleton.
  - destruct (decide (a = c)) as [->|Hne].
    + rewrite elem_of_cons. intros [->|?]; [done|auto].
    + destruct (split c s) as [|h t].
      * intros ->%list_elem_of_singleton. simpl.
        by rewrite bool_decide_eq_false_2.
      * rewrite elem_of_cons. intros [->|Hx].
        -- simpl. rewrite bool_decide_eq_false_2 by done.
           apply IH. by left.
        -- apply IH. by right.
Qed.

Lemma name_free p : contains "/" (pathlib.name p) = false.
Proof.
  unfold pathlib.name, pathlib.tail_parts.
  assert (forall l : list string,
            (forall x, x ∈ l -> contains "/" x = false) ->
            contains "/" (List.last l EmptyString) = false) as Hlast.
  { induction l as [|x [|y l] IH]; intros H; [done| |].
    - apply H. by left.
    - apply IH. intros z Hz. apply H. by right. }
  apply Hlast. intros x [_ Hx]%list_elem_of_filter.
  by apply split_parts_free in Hx.
Qed.

Lemma stem_free p : contains "/" (pathlib.stem p) = false.
Proof.
  unfold pathlib.stem. destruct (_ && _); [|apply name_free].
  apply contains_take, name_free.
Qed.

End StrFacts.

(** * Facts about the file system, [fnmatch] and [glob] *)

Section FsFacts.

Lemma child_name_spec (d p : list string) (n : string) :
  os.child_name d p = Some n <-> p = d ++ [n].
Proof.
  revert p. induction d as [|a d IH]; intros p; simpl.
  - destruct p as [|x [|y p]]; split; intros H; try discriminate H.
    + by injection H as ->.
    + by injection H as ->.
  - destruct p as [|b p]; [split; intros H; discriminate H|].
    destruct (decide (a = b)) as [->|Hne].
    + rewrite IH. split; [by intros ->|]. by intros [= ->].
    + split; [done|]. intros [= -> _]. done.
Qed.

Lemma elem_of_listdir (fs : FS) (d : list string) (n : string) :
  n ∈ os.listdir fs d <->
  os.path_isdir fs d = true /\ is_Some (fs !! (d ++ [n])).
Proof.
  unfold os.listdir. destruct (os.path_isdir fs d).
  - rewrite list_elem_of_omap. split.
    + intros [[p k] [Hin Hc]]. simpl in Hc. apply child_name_spec in Hc.
      subst. apply elem_of_map_to_list in Hin. split; [done|by exists k].
    + intros [_ [k Hk]]. exists (d ++ [n], k). split.
      * by apply elem_of_map_to_list.
      * simpl. by apply child_name_spec.
  - split; [by intros ?%elem_of_nil|]. by intros [? _].
Qed.

Lemma path_split_join (d : list string) (x : string) :
  os.path_split (os.path_join d x) = (d, Some x).
Proof.
  unfold os.path_split, os.path_join.
  rewrite removelast_last, fmap_app. simpl. by rewrite last_last.
Qed.

(** *** Patterns without magic *)

Lemma has_magic_star name : glob.has_magic (name +:+ "*") = true.
Proof.
  induction name as [|c s IH]; simpl; [done|].
  rewrite IH. apply orb_true_r.
Qed.

Lemma ishidden_star name : glob.ishidden (name +:+ "*") = glob.ishidden name.
Proof. destruct name; reflexivity. Qed.

Lemma star_matches_all s : fnmatch.matches [fnmatch.STAR] s = true.
Proof. induction s as [|c s IH]; simpl; [done|]. simpl in IH. by rewrite IH. Qed.

Lemma matches_lits_star name s :
  fnmatch.matches (lits name ++ [fnmatch.STAR]) s = Str.startswith s name.
Proof.
  revert s. induction name as [|c name IH]; intros s.
  - simpl lits. rewrite app_nil_l. by rewrite star_matches_all.
  - destruct s as [|a s]; [done|].
    simpl. rewrite IH.
    destruct (decide (a = c)) as [->|Hne].
    + by rewrite !bool_decide_eq_true_2.
    + rewrite !bool_decide_eq_false_2; [done| |done]. by intros ->.
Qed.

Lemma translate_go_plain name : forall fuel res,
  glob.has_magic name = false ->
  (String.length name < fuel)%nat ->
  last res ≠ Some fnmatch.STAR ->
  fnmatch.translate_go fuel (name +:+ "*") res
  = res ++ lits name ++ [fnmatch.STAR].
Proof.
  induction name as [|c name IH]; intros fuel res Hm Hf Hl.
  - destruct fuel as [|fuel]; [simpl in Hf; lia|]. simpl.
    destruct (reverse res) as [|t r] eqn:E.
    + by destruct fuel.
    + destruct t; try by destruct fuel.
      exfalso. apply Hl. rewrite <- (reverse_involutive res), E.
      rewrite reverse_cons. by rewrite last_snoc.
  - destruct fuel as [|fuel]; [simpl in Hf; lia|].
    simpl in Hm. apply orb_false_elim in Hm as [Hc Hm].
    apply orb_false_elim in Hc as [H1 Hc].
    apply orb_false_elim in Hc as [H2 Hc].
    apply orb_false_elim in Hc as [H3 _].
    apply bool_decide_eq_false in H1, H2, H3.
    simpl.
    rewrite (bool_decide_eq_false_2 (c = "*"%char)) by (intros ->; by apply H1).
    rewrite (bool_decide_eq_false_2 (c = "?"%char)) by (intros ->; by apply H2).
    rewrite (bool_decide_eq_false_2 (c = "["%char)) by (intros ->; by apply H3).
    rewrite IH; [|done|simpl in Hf; lia|by rewrite last_snoc].
    by rewrite <- app_assoc.
Qed.

(** Without magic in the name, the pattern [name*] matches the names
    that start with [name]. *)
Lemma fnmatchcase_prefix name n :
  glob.has_magic name = false ->
  fnmatch.fnmatchcase n (name +:+ "*") = Str.startswith n name.
Proof.
  intros Hm. unfold fnmatch.fnmatchcase, fnmatch.translate.
  rewrite translate_go_plain; [|done| |done].
  - rewrite app_nil_l. apply matches_lits_star.
  - clear Hm. induction name; simpl; lia.
Qed.

(** *** [glob] on the patterns of the cleanup *)

Lemma elem_of_glob (fs : FS) (d : list string) (name : string) (p : list string) :
  p ∈ glob.glob fs (os.path_join d (name +:+ "*")) <->
  exists n, p = d ++ [n]
    /\ os.path_isdir fs d = true
    /\ is_Some (fs !! p)
    /\ (glob.ishidden name = false -> glob.ishidden n = false)
    /\ fnmatch.fnmatchcase n (name +:+ "*") = true.
Proof.
  unfold glob.glob. rewrite path_split_join, has_magic_star.
  unfold os.path_join, glob.glob1, fnmatch.filter.
  rewrite ishidden_star, list_elem_of_fmap.
  split.
  - intros [n [-> Hn]]. exists n. split; [done|].
    apply list_elem_of_In, filter_In in Hn as [Hn Hmatch].
    destruct (glob.ishidden name) eqn:Hh; simpl in Hn.
    + apply list_elem_of_In, elem_of_listdir in Hn as [? ?]. done.
    + apply filter_In in Hn as [Hn Hv].
      apply list_elem_of_In, elem_of_listdir in Hn as [? ?].
      split_and!; try done. intros _. by apply negb_true_iff.
  - intros (n & -> & Hd & Hp & Hh & Hmatch). exists n. split; [done|].
    apply list_elem_of_In, filter_In. split; [|done].
    assert (In n (os.listdir fs d)) as Hin
      by (apply list_elem_of_In, elem_of_listdir; done).
    destruct (glob.ishidden name); simpl; [done|].
    apply filter_In. split; [done|]. apply negb_true_iff. by apply Hh.
Qed.

End FsFacts.

(** * Facts about the cleanup *)

Section CleanupFacts.

Context {R : Type}.

Lemma lookup_remove_files (files : list (list string)) (fs : FS) (q : list string) :
  remove_files files fs !! q
  = if decide (q ∈ files /\ fs !! q = Some File) then None else fs !! q.
Proof.
  revert fs. induction files as [|p files IH]; intros fs.
  - change (remove_files [] fs) with fs.
    rewrite decide_False; [done|]. by intros [?%elem_of_nil _].
  - change (remove_files (p :: files) fs)
      with (remove_files files (os.remove p fs).1).
    rewrite IH. unfold os.remove.
    destruct (fs !! p) as [[]|] eqn:Hp; simpl.
    + destruct (decide (q = p)) as [->|Hne].
      * rewrite lookup_delete_eq, Hp.
        rewrite decide_False by (by intros [_ ?]).
        rewrite decide_True; [done|]. split; [left|done].
      * rewrite lookup_delete_ne by done.
        apply decide_ext. rewrite elem_of_cons.
        split; [by intros [? ?]; auto|]. by intros [[?|?] ?].
    + apply decide_ext. rewrite elem_of_cons.
      split; [by intros [? ?]; auto|]. intros [[->|?] Hq]; [congruence|done].
    + apply decide_ext. rewrite elem_of_cons.
      split; [by intros [? ?]; auto|]. intros [[->|?] Hq]; [congruence|done].
Qed.

(** The loop over the matches: every removal is tried, none of its
    failures stops the loop. *)
Lemma remove_loop_run (files : list (list string)) (w : World R) :
  for_each files (fun file => try_pass (os_remove file)) w
  = ({| fs := remove_files files (fs w);
        remote := remote w;
        trace := trace w ++ (EvRemove <$> files) |}, Returns tt).
Proof.
  revert w. induction files as [|p files IH]; intros w.
  - simpl. unfold ret. destruct w. simpl. by rewrite app_nil_r.
  - change (remove_files (p :: files) (fs w))
      with (remove_files files (os.remove p (fs w)).1).
    rewrite fmap_cons, (cons_middle (EvRemove p)), app_assoc.
    cbn [for_each]. unfold bind at 1.
    unfold try_pass, os_remove, bind, log, on_fs. cbn [fs remote trace].
    destruct (os.remove p (fs w)) as [fs' [[]|e]]; by rewrite IH.
Qed.

Lemma adds_dirs_refl (fs : FS) : adds_dirs fs fs.
Proof. intros q. by left. Qed.

Lemma adds_dirs_trans (fs1 fs2 fs3 : FS) :
  adds_dirs fs1 fs2 -> adds_dirs fs2 fs3 -> adds_dirs fs1 fs3.
Proof.
  intros H12 H23 q. destruct (H12 q) as [E|[E1 E2]], (H23 q) as [E'|[E1' E2']].
  - left. congruence.
  - right. split; congruence.
  - right. split; congruence.
  - congruence.
Qed.

Lemma mkdir_adds_dirs (p : list string) (fs fs' : FS) (r : outcome unit) :
  os.mkdir p fs = (fs', r) -> adds_dirs fs fs'.
Proof.
  unfold os.mkdir. intros H.
  repeat case_match; simplify_eq; try apply adds_dirs_refl.
  intros q. destruct (decide (q = p)) as [->|Hne].
  - right. rewrite lookup_insert_eq. split; [|done].
    match goal with H : os.path_exists _ _ = false |- _ =>
      apply bool_decide_eq_false in H end.
    destruct (fs !! p) eqn:E; [|done]. exfalso.
    match goal with H : ¬ _ |- _ => apply H end. right. by eexists.
  - left. by rewrite lookup_insert_ne.
Qed.

Lemma makedirs_rev_adds_dirs (rname : list string) :
  forall (fs fs' : FS) (r : outcome unit),
  os.makedirs_rev rname fs = (fs', r) -> adds_dirs fs fs'.
Proof.
  induction rname as [|t rhead IH]; intros fs fs' r H.
  - simpl in H. simplify_eq. apply adds_dirs_refl.
  - simpl in H.
    assert (exists fs0 below,
      match rhead with
      | [] => (fs, Returns ())
      | _ :: _ =>
          if negb (os.path_exists fs (reverse rhead))
          then
            match os.makedirs_rev rhead fs with
            | (fs', Raises (OSError FileExistsError _)) => (fs', Returns ())
            | r => r
            end
          else (fs, Returns ())
      end = (fs0, below) /\ adds_dirs fs fs0) as (fs0 & below & E0 & H0).
    { destruct rhead as [|h rhead'].
      - eexists _, _. split; [reflexivity|apply adds_dirs_refl].
      - destruct (negb _).
        + destruct (os.makedirs_rev (h :: rhead') fs) as [fs1 r1] eqn:E1.
          apply IH in E1.
          destruct r1 as [[]|[? ?|[] ?|?]]; eexists _, _; (split; [reflexivity|done]).
        + eexists _, _. split; [reflexivity|apply adds_dirs_refl]. }
    rewrite E0 in H. clear E0 IH. destruct below as [[]|e].
    + destruct (os.mkdir _ fs0) as [fs1 [[]|e]] eqn:E.
      * injection H as <- <-. apply mkdir_adds_dirs in E.
        by eapply adds_dirs_trans.
      * apply mkdir_adds_dirs in E.
        destruct (negb _); injection H as <- <-; by eapply adds_dirs_trans.
    + by injection H as <- <-.
Qed.

Lemma mkdir_returns_isdir (p : list string) (fs fs' : FS) :
  os.mkdir p fs = (fs', Returns tt) -> os.path_isdir fs' p = true.
Proof.
  unfold os.mkdir. intros H. repeat case_match; simplify_eq.
  apply bool_decide_eq_true. right. by rewrite lookup_insert_eq.
Qed.

Lemma makedirs_rev_returns_isdir (rname : list string) (fs fs' : FS) :
  os.makedirs_rev rname fs = (fs', Returns tt) ->
  os.path_isdir fs' (reverse rname) = true.
Proof.
  destruct rname as [|t rhead]; simpl; intros H.
  - done.
  - destruct (match rhead with [] => _ | _ :: _ => _ end) as [fs0 [[]|e0]];
      [|done].
    destruct (os.mkdir _ fs0) as [fs1 [[]|e]] eqn:E.
    + simplify_eq. by apply mkdir_returns_isdir in E.
    + destruct (os.path_isdir fs1 _) eqn:Hd; simpl in H; by simplify_eq.
Qed.

Lemma makedirs_adds_dirs (name : list string) (fs fs' : FS) (r : outcome unit) :
  os.makedirs name fs = (fs', r) -> adds_dirs fs fs'.
Proof. apply makedirs_rev_adds_dirs. Qed.

Lemma makedirs_returns_isdir (name : list string) (fs fs' : FS) :
  os.makedirs name fs = (fs', Returns tt) -> os.path_isdir fs' name = true.
Proof.
  intros H%makedirs_rev_returns_isdir. by rewrite reverse_involutive in H.
Qed.

End CleanupFacts.

Section CleanupRun.

Context {R : Type}.

(** The cleanup, step by step: two [makedirs], then the two globs, each
    followed by its removals. *)
Lemma cleanup_run (name type : string) (w : World R) :
  cleanup_old_artifacts name type w =
  let d1 := ["uploaded_contracts"; type] in
  let d2 := ["test_summaries"; type] in
  match os.makedirs d1 (fs w) with
  | (fs1, Raises e) =>
      ({| fs := fs1; remote := remote w;
          trace := trace w ++ [EvMakedirs d1] |}, Raises e)
  | (fs1, Returns _) =>
      match os.makedirs d2 fs1 with
      | (fs2, Raises e) =>
          ({| fs := fs2; remote := remote w;
              trace := trace w ++ [EvMakedirs d1; EvMakedirs d2] |}, Raises e)
      | (fs2, Returns _) =>
          let l1 := glob.glob fs2 (d1 ++ [name +:+ "*"]) in
          let fs3 := remove_files l1 fs2 in
          let l2 := glob.glob fs3 (d2 ++ [name +:+ "*"]) in
          ({| fs := remove_files l2 fs3; remote := remote w;
              trace := trace w ++ [EvMakedirs d1; EvMakedirs d2]
                       ++ (EvRemove <$> l1) ++ (EvRemove <$> l2) |},
           Returns tt)
      end
  end.
Proof.
  unfold cleanup_old_artifacts, os.path_join. cbn [app].
  unfold bind at 1. unfold os_makedirs at 1, bind at 1, log, on_fs.
  cbn [fs remote trace].
  destruct (os.makedirs _ (fs w)) as [fs1 [[]|e]]; [|done].
  unfold bind at 1. unfold os_makedirs at 1, bind at 1, log, on_fs.
  cbn [fs remote trace].
  destruct (os.makedirs _ fs1) as [fs2 [[]|e]];
    [|by rewrite <- app_assoc].
  cbn [for_each]. unfold bind at 1, bind at 1, glob_glob at 1.
  rewrite remove_loop_run. cbn [fs remote trace].
  unfold bind at 1, bind at 1, glob_glob at 1.
  rewrite remove_loop_run. cbn [fs remote trace].
  unfold ret. by rewrite <- !app_assoc.
Qed.

Lemma cleanup_remote (name type : string) (w : World R) :
  remote (cleanup_old_artifacts name type w).1 = remote w.
Proof.
  rewrite cleanup_run. cbv zeta.
  destruct (os.makedirs _ (fs w)) as [fs1 [[]|e]]; [|done].
  by destruct (os.makedirs _ fs1) as [fs2 [[]|e]].
Qed.

(** The cleanup only adds file system events to the trace. *)
Lemma cleanup_trace (name type : string) (w : World R) :
  exists evs, trace (cleanup_old_artifacts name type w).1 = trace w ++ evs
    /\ forallb is_fs_event evs = true.
Proof.
  rewrite cleanup_run. cbv zeta.
  destruct (os.makedirs _ (fs w)) as [fs1 [[]|e]]; [|by eexists].
  destruct (os.makedirs _ fs1) as [fs2 [[]|e]]; [|by eexists].
  eexists. split; [reflexivity|].
  rewrite !forallb_app. cbn [forallb is_fs_event andb].
  assert (forall l : list (list string),
            forallb is_fs_event (EvRemove <$> l) = true) as H
    by (induction l; done).
  by rewrite !H.
Qed.

Lemma artifact_dirs_apart (type : string) (n n' : string) :
  ["uploaded_contracts"; type] ++ [n] ≠ ["test_summaries"; type] ++ [n'].
Proof. intros H. discriminate H. Qed.

Lemma cleanup_target_spec (name type : string) (q : list string) :
  cleanup_target name type q = true <->
  exists n, artifact_entry type q n /\ glob_hit name n = true.
Proof.
  unfold cleanup_target, artifact_name, artifact_entry. split.
  - destruct q as [|d [|t [|n [|? ?]]]]; try done.
    case_bool_decide as H; [|done]. intros Hn. exists n.
    destruct H as [[-> | ->] ->]; split; auto.
  - intros (n & [-> | ->] & Hn);
      rewrite bool_decide_eq_true_2; auto.
Qed.

(** What a returning cleanup did: the directories are there, a removal
    was tried on every entry [glob] selects in them, and of these the
    regular files are gone. *)
Lemma cleanup_attempts (name type : string) (w w' : World R) :
  cleanup_old_artifacts name type w = (w', Returns tt) ->
  exists (fs2 : FS) (l : list (list string)),
    adds_dirs (fs w) fs2
    /\ fs2 !! ["uploaded_contracts"; type] = Some Dir
    /\ fs2 !! ["test_summaries"; type] = Some Dir
    /\ trace w' = trace w
                  ++ [EvMakedirs ["uploaded_contracts"; type];
                      EvMakedirs ["test_summaries"; type]]
                  ++ (EvRemove <$> l)
    /\ (forall q : list string,
          q ∈ l <-> is_Some (fs2 !! q) /\ cleanup_target name type q = true)
    /\ forall q : list string,
         fs w' !! q =
         if bool_decide (fs2 !! q = Some File) && cleanup_target name type q
         then None else fs2 !! q.
Proof.
  rewrite cleanup_run. cbv zeta.
  destruct (os.makedirs _ (fs w)) as [fs1 [[]|e]] eqn:E1; [|done].
  destruct (os.makedirs _ fs1) as [fs2 [[]|e]] eqn:E2; [|done].
  intros [= <-]. cbn [fs trace].
  pose proof (makedirs_adds_dirs _ _ _ _ E1) as A1.
  pose proof (makedirs_adds_dirs _ _ _ _ E2) as A2.
  apply makedirs_returns_isdir in E1, E2.
  apply bool_decide_eq_true in E1 as [E1|E1]; [done|].
  apply bool_decide_eq_true in E2 as [E2|E2]; [done|].
  assert (fs2 !! ["uploaded_contracts"; type] = Some Dir) as D1.
  { destruct (A2 ["uploaded_contracts"; type]) as [->|[? ?]]; congruence. }
  set (d1 := ["uploaded_contracts"; type]) in *.
  set (d2 := ["test_summaries"; type]) in *.
  set (l1 := glob.glob fs2 (d1 ++ [name +:+ "*"])).
  assert (forall p, p ∈ l1 <->
            exists n, p = d1 ++ [n] /\ is_Some (fs2 !! p)
                      /\ glob_hit name n = true) as Hl1.
  { intros p. unfold l1. rewrite (elem_of_glob fs2 d1 name p).
    unfold glob_hit. split.
    - intros (n & -> & _ & Hp & Hh & Hm). exists n. split_and!; try done.
      rewrite Hm, andb_true_r.
      destruct (glob.ishidden name); [apply orb_true_r|].
      by rewrite Hh.
    - intros (n & -> & Hp & [Hh Hm]%andb_prop). exists n.
      split_and!; try done.
      + apply bool_decide_eq_true. by right.
      + intros Hn. rewrite Hn, orb_false_r in Hh. by apply negb_true_iff. }
  set (fs3 := remove_files l1 fs2).
  assert (forall p, fs3 !! p =
            if decide (p ∈ l1 /\ fs2 !! p = Some File) then None
            else fs2 !! p) as Hfs3
    by (intros p; apply lookup_remove_files).
  assert (fs3 !! d2 = Some Dir) as D2.
  { rewrite Hfs3, decide_False; [done|]. intros [_ ?]. congruence. }
  set (l2 := glob.glob fs3 (d2 ++ [name +:+ "*"])).
  assert (forall p, p ∈ l2 <->
            exists n, p = d2 ++ [n] /\ is_Some (fs2 !! p)
                      /\ glob_hit name n = true) as Hl2.
  { intros p. unfold l2. rewrite (elem_of_glob fs3 d2 name p).
    unfold glob_hit. split.
    - intros (n & -> & _ & Hp & Hh & Hm). exists n. split_and!; try done.
      + rewrite Hfs3 in Hp. destruct (decide _); [by destruct Hp|done].
      + rewrite Hm, andb_true_r.
        destruct (glob.ishidden name); [apply orb_true_r|].
        by rewrite Hh.
    - intros (n & -> & Hp & [Hh Hm]%andb_prop). exists n.
      split_and!; try done.
      + apply bool_decide_eq_true. by right.
      + rewrite Hfs3, decide_False; [done|].
        intros [(n' & Hn' & _)%Hl1 _]. symmetry in Hn'.
        by apply artifact_dirs_apart in Hn'.
      + intros Hn. rewrite Hn, orb_false_r in Hh. by apply negb_true_iff. }
  exists fs2, (l1 ++ l2).
  split_and!; [by eapply adds_dirs_trans|done|done|by rewrite fmap_app|..].
  { intros q. rewrite elem_of_app, Hl1, Hl2, cleanup_target_spec.
    unfold artifact_entry. split.
    - intros [(n & -> & ? & ?)|(n & -> & ? & ?)]; split; eauto.
    - intros [Hq (n & [->| ->] & Hn)]; [left|right]; eauto. }
  intros q. rewrite lookup_remove_files, Hfs3.
  destruct (bool_decide (fs2 !! q = Some File) && cleanup_target name type q)
    eqn:Hc.
  1: apply andb_prop in Hc as [Hq%bool_decide_eq_true Ht];
     apply cleanup_target_spec in Ht as (n & [->| ->] & Hn).
  3: assert (~ (fs2 !! q = Some File
                /\ exists n, artifact_entry type q n
                             /\ glob_hit name n = true)) as Hno
       by (intros [Hq Ht%cleanup_target_spec];
           by rewrite Ht, bool_decide_eq_true_2 in Hc).
  - rewrite (decide_True (P := _ ∈ l1 /\ _)).
    + by destruct (decide _).
    + split; [|done]. apply Hl1. exists n. by rewrite Hq.
  - rewrite decide_True; [done|]. split.
    + apply Hl2. exists n. by rewrite Hq.
    + rewrite decide_False; [done|].
      intros [(n' & Hn' & _)%Hl1 _]. symmetry in Hn'.
      by apply artifact_dirs_apart in Hn'.
  - destruct (decide (q ∈ l1 /\ fs2 !! q = Some File)) as [[Hin Hq]|H1].
    + exfalso. apply Hno. split; [done|].
      apply Hl1 in Hin as (n & -> & _ & Hn). exists n. split; [by left|done].
    + rewrite decide_False; [done|]. intros [Hin Hq].
      apply Hno. split; [done|].
      apply Hl2 in Hin as (n & -> & _ & Hn). exists n. split; [by right|done].
Qed.

(** The file system a returning cleanup leaves: the directories are
    there, and of the entries only the regular files that [glob] selects
    in the two directories are gone. *)
Lemma cleanup_final_fs (name type : string) (w w' : World R) :
  cleanup_old_artifacts name type w = (w', Returns tt) ->
  exists fs2 : FS,
    adds_dirs (fs w) fs2
    /\ fs2 !! ["uploaded_contracts"; type] = Some Dir
    /\ fs2 !! ["test_summaries"; type] = Some Dir
    /\ forall q : list string,
         fs w' !! q =
         if bool_decide (fs2 !! q = Some File) && cleanup_target name type q
         then None else fs2 !! q.
Proof.
  intros H. destruct (cleanup_attempts name type w w' H)
    as (fs2 & l & ? & ? & ? & _ & _ & ?). by exists fs2.
Qed.

End CleanupRun.

(** * Facts about the routes *)

Lemma route_allowed_spec (k : route) (e : string) :
  e ∈ route_allowed k <->
  match k with
  | Evm => e = ".sol" \/ e = ".txt"
  | NonEvm => e = ".rs" \/ e = ".wasm"
  end.
Proof.
  destruct k; unfold route_allowed, ALLOWED_EVM_EXTENSIONS,
    ALLOWED_NON_EVM_EXTENSIONS; set_solver.
Qed.


(** The pattern an upload hands to [glob] has one last component. *)
Lemma base_name_free (f : string) : Str.contains "/" (base_name f) = false.
Proof.
  unfold base_name. rewrite contains_lower by apply case_free_slash.
  apply contains_lstrip, contains_rstrip, stem_free.
Qed.

Section RouteFacts.

Context {R : Type}.
Variable remote_upload :
  list Byte.byte -> string -> string -> R -> R * (string + unit).
Variable remote_trigger : string -> string -> R -> R * (string + json).
Variable remote_fetch : string -> string -> R -> R * (string + json).

Lemma upload_evm_contract_pipeline :
  upload_evm_contract remote_upload remote_trigger remote_fetch
  = upload_pipeline remote_upload remote_trigger remote_fetch
      ALLOWED_EVM_EXTENSIONS "evm" "EVM contract processed" process_evm_contract.
Proof. reflexivity. Qed.

Lemma upload_non_evm_contract_pipeline :
  upload_non_evm_contract remote_upload remote_trigger remote_fetch
  = upload_pipeline remote_upload remote_trigger remote_fetch
      ALLOWED_NON_EVM_EXTENSIONS "non-evm" "Non-EVM contract processed"
      process_non_evm_contract.
Proof. reflexivity. Qed.

Lemma get_test_results_pipeline :
  get_test_results remote_fetch = results_pipeline remote_fetch "evm".
Proof. reflexivity. Qed.

Lemma get_non_evm_test_results_pipeline :
  get_non_evm_test_results remote_fetch = results_pipeline remote_fetch "non-evm".
Proof. reflexivity. Qed.

Lemma validate_extension_run (filename : string) (allowed : gset string)
    (w : World R) :
  validate_extension filename allowed w =
  if decide (tested_extension filename ∈ allowed) then (w, Returns tt)
  else (w, Raises (HTTPException 400
         ("File type " +:+ tested_extension filename +:+ " not allowed."))).
Proof.
  unfold validate_extension, tested_extension.
  destruct (decide (_ ∉ allowed)) as [H|H].
  - by rewrite decide_False.
  - rewrite decide_True; [done|]. by apply dec_stable.
Qed.

(** The run of an upload, step by step. *)
Lemma upload_pipeline_run allowed type message process up (w : World R) :
  tested_extension (filename up) ∈ allowed ->
  upload_pipeline remote_upload remote_trigger remote_fetch
    allowed type message process up w =
  match cleanup_old_artifacts (base_name (filename up)) type w with
  | (w1, Raises e) => (w1, Raises e)
  | (w1, Returns _) =>
      let ev := upload_steps remote_upload remote_trigger remote_fetch
                  type up (remote w1) in
      let ua := upload_answer remote_upload type up (remote w1) in
      let ta := trigger_answer remote_upload remote_trigger type up (remote w1) in
      let fa := fetch_answer remote_upload remote_trigger remote_fetch
                  type up (remote w1) in
      match ua.2 with
      | inl what =>
          ({| fs := fs w1; remote := ua.1; trace := trace w1 ++ take 2 ev |},
           Raises (RemoteError what))
      | inr _ =>
          match ta.2 with
          | inl what =>
              ({| fs := fs w1; remote := ta.1; trace := trace w1 ++ take 3 ev |},
               Raises (RemoteError what))
          | inr logs =>
              match fa.2 with
              | inl what =>
                  ({| fs := fs w1; remote := fa.1; trace := trace w1 ++ ev |},
                   Raises (RemoteError what))
              | inr report =>
                  ({| fs := fs w1; remote := fa.1; trace := trace w1 ++ ev |},
                   Returns (JSONResponse_new
                     (upload_body message up logs report
                        (process (file_bytes up) (filename up))) []))
              end
          end
      end
  end.
Proof.
  intros Hext. unfold upload_pipeline.
  unfold bind at 1. rewrite validate_extension_run, decide_True by done.
  unfold bind at 1. fold (base_name (filename up)).
  destruct (cleanup_old_artifacts _ type w) as [w1 [[]|e]]; [|done].
  cbv zeta.
  unfold upload_steps, fetch_answer, trigger_answer, upload_answer.
  fold (report_filename (filename up)).
  unfold bind at 1. unfold read, bind at 1, log, ret. cbn [fs remote trace].
  unfold bind at 1. unfold upload_to_remote_container_memory, call_remote.
  cbn [fs remote trace].
  destruct (remote_upload _ _ _ (remote w1)) as [r1 [what|[]]];
    cbn [fst snd take]; [by rewrite <- app_assoc|].
  unfold bind at 1. unfold trigger_docker_test, call_remote.
  cbn [fs remote trace].
  destruct (remote_trigger _ _ r1) as [r2 [what|logs]];
    cbn [fst snd take]; [by rewrite <- !app_assoc|].
  unfold bind at 1. unfold fetch_from_remote_container, call_remote.
  cbn [fs remote trace].
  destruct (remote_fetch _ _ r2) as [r3 [what|report]];
    cbn [fst snd take]; by rewrite <- !app_assoc.
Qed.

Lemma upload_pipeline_rejects allowed type message process up (w : World R) :
  tested_extension (filename up) ∉ allowed ->
  upload_pipeline remote_upload remote_trigger remote_fetch
    allowed type message process up w =
  (w, Raises (HTTPException 400
       ("File type " +:+ tested_extension (filename up) +:+ " not allowed."))).
Proof.
  intros Hext. unfold upload_pipeline.
  unfold bind at 1. by rewrite validate_extension_run, decide_False.
Qed.

Lemma results_pipeline_run type filename (w : World R) :
  results_pipeline remote_fetch type filename w =
  let fa := remote_fetch (report_filename filename) type (remote w) in
  ({| fs := fs w; remote := fa.1;
      trace := trace w ++ [EvFetch (report_filename filename) type fa.2] |},
   match fa.2 with
   | inl what => Raises (RemoteError what)
   | inr report =>
       Returns (JSONResponse_new
         (JObj [ ("filename", JStr filename); ("aggregated_report", report) ])
         no_cache_headers)
   end).
Proof.
  unfold results_pipeline, bind, fetch_from_remote_container, call_remote.
  fold (base_name filename). fold (report_filename filename).
  by destruct (remote_fetch _ _ _) as [r1 [what|report]].
Qed.

(** [os.makedirs] and the cleanup raise nothing but [OSError]. *)
Lemma mkdir_raises (p : list string) (fs fs' : FS) (e : exn) :
  os.mkdir p fs = (fs', Raises e) -> exists k q, e = OSError k q.
Proof. unfold os.mkdir. intros H. repeat case_match; simplify_eq; eauto. Qed.

Lemma makedirs_rev_raises (rname : list string) :
  forall (fs fs' : FS) (e : exn),
    os.makedirs_rev rname fs = (fs', Raises e) -> exists k q, e = OSError k q.
Proof.
  induction rname as [|t rhead IH]; intros fs fs' e H; [done|].
  simpl in H.
  destruct (match rhead with [] => _ | _ :: _ => _ end)
    as [fs0 [[]|e0]] eqn:E0.
  - clear E0 IH. destruct (os.mkdir _ fs0) as [fs1 [[]|e1]] eqn:E; [done|].
    apply mkdir_raises in E. destruct (negb _); by simplify_eq.
  - injection H as <- <-. destruct rhead as [|h rhead']; [done|].
    destruct (negb _); [|done].
    destruct (os.makedirs_rev (h :: rhead') fs) as [fs1 [[]|e1]] eqn:E1;
      [done|].
    apply IH in E1 as (k & q & ->). destruct k; by simplify_eq; eauto.
Qed.

Lemma cleanup_raises (name type : string) (w w' : World R) (e : exn) :
  cleanup_old_artifacts name type w = (w', Raises e) ->
  exists k q, e = OSError k q.
Proof.
  rewrite cleanup_run. cbv zeta.
  destruct (os.makedirs _ (fs w)) as [fs1 [[]|e1]] eqn:E1.
  - destruct (os.makedirs _ fs1) as [fs2 [[]|e2]] eqn:E2; [done|].
    intros [= <- <-]. by eapply makedirs_rev_raises.
  - intros [= <- <-]. by eapply makedirs_rev_raises.
Qed.

End RouteFacts.

(** * The specification *)

Section Claims.

Context {R : Type}.
Variable remote_upload :
  list Byte.byte -> string -> string -> R -> R * (string + unit).
Variable remote_trigger : string -> string -> R -> R * (string + json).
Variable remote_fetch : string -> string -> R -> R * (string + json).

Local Abbreviation upload :=
  (upload_handler remote_upload remote_trigger remote_fetch).
Local Abbreviation results := (results_handler remote_fetch).

Lemma upload_handler_pipeline (k : route) :
  upload k
  = upload_pipeline remote_upload remote_trigger remote_fetch
      (route_allowed k) (route_type k) (route_message k) (route_process k).
Proof. by destruct k. Qed.

Lemma results_handler_pipeline (k : route) :
  results k = results_pipeline remote_fetch (route_type k).
Proof. by destruct k. Qed.

(** An accepted upload never ends in the client error: what the later
    steps raise is an [OSError] or an exception of the runner. *)
Lemma accepted_upload_not_rejected (k : route) (up : UploadFile) (w : World R) :
  tested_extension (filename up) ∈ route_allowed k ->
  ~ rejected (upload k up w).2.
Proof.
  intros Hext [detail H]. revert H.
  rewrite upload_handler_pipeline, upload_pipeline_run by done.
  destruct (cleanup_old_artifacts _ _ w) as [w1 [[]|e]] eqn:Hc.
  - cbv zeta. repeat case_match; done.
  - apply cleanup_raises in Hc as (? & ? & ->). done.
Qed.

(** C1 (amended).  An upload handler accepts a file exactly when the
    lower-cased extension of its name, [os.path.splitext(filename)[1].lower()],
    is in the allow-set of the route, which is [.sol], [.txt] for
    upload-evm and [.rs], [.wasm] for upload-non-evm; for every other
    file name it raises HTTP 400 with the detail
    ["File type <ext> not allowed."], where [<ext>] is that lower-cased
    extension. *)
Theorem upload_accepts_iff_tested_extension_allowed
    (k : route) (up : UploadFile) (w : World R) :
  (tested_extension (filename up) ∈ route_allowed k
   <-> ~ rejected (upload k up w).2)
  /\ (tested_extension (filename up) ∉ route_allowed k ->
      (upload k up w).2
      = Raises (HTTPException 400
          ("File type " +:+ tested_extension (filename up) +:+ " not allowed.")))
  /\ (tested_extension (filename up) ∈ route_allowed k <->
      match k with
      | Evm => tested_extension (filename up) = ".sol"
               \/ tested_extension (filename up) = ".txt"
      | NonEvm => tested_extension (filename up) = ".rs"
                  \/ tested_extension (filename up) = ".wasm"
      end).
Proof.
  split_and!; [|..|apply route_allowed_spec].
  - split; [apply accepted_upload_not_rejected|].
    intros Hacc. destruct (decide (tested_extension (filename up)
                                     ∈ route_allowed k)) as [|Hno]; [done|].
    exfalso. apply Hacc.
    rewrite upload_handler_pipeline, upload_pipeline_rejects by done.
    by eexists.
  - intros Hno.
    by rewrite upload_handler_pipeline, upload_pipeline_rejects.
Qed.


(** C7.  An upload whose extension is not allowed fails before any side
    effect: the handler raises HTTP 400 in the world it started in, with
    the same local files and directories, the same remote state and no
    event added to the trace. *)
Theorem rejected_upload_has_no_effect
    (k : route) (up : UploadFile) (w : World R) :
  tested_extension (filename up) ∉ route_allowed k ->
  exists detail,
    upload k up w = (w, Raises (HTTPException 400 detail))
    /\ fs (upload k up w).1 = fs w
    /\ remote (upload k up w).1 = remote w
    /\ trace (upload k up w).1 = trace w.
Proof.
  intros Hno. rewrite upload_handler_pipeline, upload_pipeline_rejects by done.
  by eexists.
Qed.

(** C5.  Every response of the two result handlers carries the header
    [Cache-Control: no-store, no-cache, must-revalidate, max-age=0] and
    has the body [{filename, aggregated_report}], with the file name of
    the request unchanged and the content the remote runner returned for
    the derived report name; the handler makes that one fetch, and it
    responds whenever the fetch returns. *)
Theorem results_response
    (k : route) (f : string) (w : World R) :
  let answer := remote_fetch (report_filename f) (route_type k) (remote w) in
  trace (results k f w).1
    = trace w ++ [EvFetch (report_filename f) (route_type k) answer.2]
  /\ (forall resp, (results k f w).2 = Returns resp ->
        headers resp
          = [("Cache-Control", "no-store, no-cache, must-revalidate, max-age=0")]
        /\ keys (content resp) = ["filename"; "aggregated_report"]
        /\ member "filename" (content resp) = Some (JStr f)
        /\ exists report, answer.2 = inr report
             /\ member "aggregated_report" (content resp) = Some report)
  /\ (forall report, answer.2 = inr report ->
        exists resp, (results k f w).2 = Returns resp).
Proof.
  rewrite results_handler_pipeline, results_pipeline_run. cbv zeta.
  cbn [fst snd trace].
  destruct (remote_fetch _ _ _) as [r1 [what|report]]; cbn [fst snd].
  - split_and!; [done|done|]. by intros report [=].
  - split_and!; [done| |by eexists].
    intros resp [= <-]. split_and!; try done. by exists report.
Qed.

(** C9.  The [details] member of a successful upload response is
    [{contract_type, filename, status: "processed"}] for the type of the
    route and the uploaded file name: it does not depend on the bytes of
    the file, so two uploads of one file name to one route have the same
    details. *)
Theorem details_independent_of_contents
    (k : route) (up up' : UploadFile) (w w' v v' : World R)
    (resp resp' : JSONResponse) :
  filename up = filename up' ->
  upload k up w = (w', Returns resp) ->
  upload k up' v = (v', Returns resp') ->
  member "details" (content resp)
    = Some (JObj [ ("contract_type", JStr (route_type k));
                   ("filename", JStr (filename up));
                   ("status", JStr "processed") ])
  /\ member "details" (content resp') = member "details" (content resp).
Proof.
  assert (forall (u : UploadFile) (x x' : World R) (r : JSONResponse),
    upload k u x = (x', Returns r) ->
    member "details" (content r)
    = Some (JObj [ ("contract_type", JStr (route_type k));
                   ("filename", JStr (filename u));
                   ("status", JStr "processed") ])) as Hd.
  { intros u x x' r.
    destruct (decide (tested_extension (filename u) ∈ route_allowed k))
      as [Hext|Hext].
    - rewrite upload_handler_pipeline, upload_pipeline_run by done.
      destruct (cleanup_old_artifacts _ _ x) as [x1 [[]|e]]; [|done].
      cbv zeta. repeat case_match; try done.
      intros [= _ <-]. by destruct k.
    - by rewrite upload_handler_pipeline, upload_pipeline_rejects. }
  intros Hf H H'. apply Hd in H, H'. by rewrite H, H', Hf.
Qed.

(** *** The steps of an upload *)

Lemma take_prefix_of {A : Type} (n : nat) (l : list A) : take n l `prefix_of` l.
Proof. exists (drop n l). by rewrite take_drop. Qed.



(** C3.  An upload that passes the validation runs the cleanup for the
    base name of the file first, a run of file system events, and then
    reads the file, uploads its bytes, triggers the test and fetches the
    report [<base>-report.md], in this order and each step only after the
    one before it returned.  When the handler responds, all the steps
    were made and the body is
    [{message, filename, docker_logs, aggregated_report, details}], with
    the logs the trigger returned, the report the fetch returned and the
    file name unchanged; it responds whenever no step raises. *)
Theorem upload_steps_in_order (k : route) (up : UploadFile) (w : World R) :
  tested_extension (filename up) ∈ route_allowed k ->
  let type := route_type k in
  let cleaned := cleanup_old_artifacts (base_name (filename up)) type w in
  let steps :=
    upload_steps remote_upload remote_trigger remote_fetch type up (remote w) in
  let sent := upload_answer remote_upload type up (remote w) in
  let triggered :=
    trigger_answer remote_upload remote_trigger type up (remote w) in
  let fetched :=
    fetch_answer remote_upload remote_trigger remote_fetch type up (remote w) in
  let run := upload k up w in
  exists evs made,
    trace cleaned.1 = trace w ++ evs
    /\ forallb is_fs_event evs = true
    /\ made `prefix_of` steps
    /\ trace run.1 = trace w ++ evs ++ made
    /\ fs run.1 = fs cleaned.1
    /\ (cleaned.2 ≠ Returns tt -> made = [])
    /\ (forall resp, run.2 = Returns resp ->
          cleaned.2 = Returns tt
          /\ made = steps
          /\ sent.2 = inr tt
          /\ exists logs report,
               triggered.2 = inr logs
               /\ fetched.2 = inr report
               /\ resp = JSONResponse_new
                    (upload_body (route_message k) up logs report
                       (route_process k (file_bytes up) (filename up))) []
               /\ keys (content resp)
                  = ["message"; "filename"; "docker_logs";
                     "aggregated_report"; "details"]
               /\ member "filename" (content resp) = Some (JStr (filename up))
               /\ member "docker_logs" (content resp) = Some logs
               /\ member "aggregated_report" (content resp) = Some report)
    /\ (cleaned.2 = Returns tt -> returned sent.2 -> returned triggered.2 ->
        returned fetched.2 -> exists resp, run.2 = Returns resp).
Proof.
  intros Hext. cbv zeta.
  rewrite upload_handler_pipeline, upload_pipeline_run by done.
  destruct (cleanup_trace (base_name (filename up)) (route_type k) w)
    as (evs & Htr & Hevs).
  pose proof (cleanup_remote (base_name (filename up)) (route_type k) w) as Hrem.
  destruct (cleanup_old_artifacts _ _ w) as [w1 [[]|e]]; cbn [fst snd] in *.
  2: { exists evs, []. rewrite app_nil_r.
       split_and!; try done. by apply prefix_nil. }
  rewrite Hrem. cbv zeta.
  set (steps := upload_steps _ _ _ _ _ _).
  destruct (upload_answer _ _ _ _).2 as [what|[]] eqn:Hu.
  { exists evs, (take 2 steps). cbn [fst snd fs trace]. rewrite Htr, <- app_assoc.
    split_and!; try done; [apply take_prefix_of|by intros _ [? [=]]]. }
  destruct (trigger_answer _ _ _ _ _).2 as [what|logs] eqn:Ht.
  { exists evs, (take 3 steps). cbn [fst snd fs trace]. rewrite Htr, <- app_assoc.
    split_and!; try done; [apply take_prefix_of|by intros _ _ [? [=]]]. }
  destruct (fetch_answer _ _ _ _ _ _).2 as [what|report] eqn:Hf.
  { exists evs, steps. cbn [fst snd fs trace]. rewrite Htr, <- app_assoc.
    split_and!; try done; by intros _ _ _ [? [=]]. }
  exists evs, steps. cbn [fst snd fs trace]. rewrite Htr, <- app_assoc.
  split_and!; try done; [|by eexists].
  intros resp [= <-]. split_and!; try done. by exists logs, report.
Qed.

(** *** The report name *)






(** *** The cleanup *)

Lemma startswith_hidden (n name : string) :
  name ≠ EmptyString -> Str.startswith n name = true ->
  glob.ishidden n = glob.ishidden name.
Proof.
  destruct name as [|c name]; [done|]. intros _.
  destruct n as [|a n]; [done|]. cbn.
  intros [->%bool_decide_eq_true _]%andb_prop. done.
Qed.

(** Without magic in the name, [glob] selects the names that start with
    it; with the empty name, those that are not hidden. *)
Lemma glob_hit_plain (name n : string) :
  glob.has_magic name = false ->
  glob_hit name n
  = Str.startswith n name
    && (bool_decide (name ≠ EmptyString) || negb (glob.ishidden n)).
Proof.
  intros Hm. unfold glob_hit. rewrite fnmatchcase_prefix by done.
  destruct (Str.startswith n name) eqn:Hs; [|by rewrite andb_false_r].
  rewrite andb_true_r, andb_true_l.
  destruct name as [|c name]; [by rewrite orb_false_r|].
  rewrite (startswith_hidden n (String c name)) by done.
  rewrite bool_decide_eq_true_2 by done. apply orb_negb_l.
Qed.



(** Both directories are there after a cleanup that returns, whatever the
    base name. *)
Lemma cleanup_creates_directories (name type : string) (w w' : World R) :
  cleanup_old_artifacts name type w = (w', Returns tt) ->
  fs w' !! ["uploaded_contracts"; type] = Some Dir
  /\ fs w' !! ["test_summaries"; type] = Some Dir.
Proof.
  intros (fs2 & Hadd & D1 & D2 & Hlook)%cleanup_final_fs.
  split.
  - by rewrite Hlook, D1.
  - by rewrite Hlook, D2.
Qed.

(** The part of the file system the cleanup leaves alone, for a base
    name without glob characters: every entry outside the two
    directories, or whose name does not start with the base name, is
    kept. *)
Lemma cleanup_keeps_other_entries (name type : string) (w w' : World R) :
  glob.has_magic name = false ->
  cleanup_old_artifacts name type w = (w', Returns tt) ->
  forall q x,
    fs w !! q = Some x ->
    (forall n, artifact_entry type q n -> Str.startswith n name = false) ->
    fs w' !! q = Some x.
Proof.
  intros Hm (fs2 & Hadd & D1 & D2 & Hlook)%cleanup_final_fs.
  - intros q x Hx Hq.
    assert (fs2 !! q = Some x) as Hx2
      by (destruct (Hadd q) as [->|[? ?]]; congruence).
    rewrite Hlook, Hx2.
    destruct (cleanup_target name type q) eqn:Ht;
      [|by rewrite andb_false_r].
    apply cleanup_target_spec in Ht as (n & Hn & Hhit).
    rewrite glob_hit_plain in Hhit by done.
    apply andb_prop in Hhit as [Hs _]. by rewrite (Hq n Hn) in Hs.
Qed.

End Claims.

(** * The routes on concrete requests *)

Section Examples.

Local Abbreviation upload :=
  (upload_handler Sample.upload Sample.trigger Sample.fetch).
Local Abbreviation results := (results_handler Sample.fetch).

Example splitext_MyToken : posixpath.splitext "MyToken.sol" = ("MyToken", ".sol").
Proof. reflexivity. Qed.

Example splitext_hidden : posixpath.splitext ".sol" = (".sol", "").
Proof. reflexivity. Qed.

Example stem_MyToken : pathlib.stem "MyToken.sol" = "MyToken".
Proof. reflexivity. Qed.

Example base_name_MyToken : base_name "dir/My Token .SOL" = "my token".
Proof. reflexivity. Qed.

Example splitext_edge_cases :
  posixpath.splitext <$> ["a/b.c/..x"; "a.b/c"; "x.tar.gz"; "a."; " .sol"]
  = [("a/b.c/..x", ""); ("a.b/c", ""); ("x.tar", ".gz"); ("a", ".");
     (" ", ".sol")].
Proof. reflexivity. Qed.

Example stem_edge_cases :
  pathlib.stem <$> ["a/b/.sol"; " .sol"; "a."; "a.b/"; "a.b/."; ".."; "x.tar.gz"]
  = [".sol"; " "; "a."; "a"; "a"; ".."; "x.tar"].
Proof. reflexivity. Qed.

Example glob_mytoken :
  glob.glob Sample.files ["uploaded_contracts"; "evm"; "mytoken*"]
  ≡ₚ [ ["uploaded_contracts"; "evm"; "mytoken.sol"];
       ["uploaded_contracts"; "evm"; "mytoken_old"] ].
Proof. vm_compute. repeat constructor. Qed.

Example glob_star_skips_hidden :
  ["uploaded_contracts"; "evm"; ".gitkeep"]
    ∉ glob.glob Sample.files ["uploaded_contracts"; "evm"; "*"].
Proof.
  vm_compute. intros H.
  repeat (apply elem_of_cons in H as [[=]|H]). by apply elem_of_nil in H.
Qed.

Example fnmatch_bracket :
  fnmatch.fnmatchcase "a[b].sol" "a[b]*" = false
  /\ fnmatch.fnmatchcase "ab.sol" "a[b]*" = true.
Proof. split; reflexivity. Qed.

(** C1, as stated, fails: the extension of [X.SOL] is [.SOL], which is
    not in the allow-set, and the upload is accepted; and the detail of a
    rejection names the lower-cased extension, not the extension of the
    file name. *)
Lemma upper_case_extension_accepted :
  ~ ((posixpath.splitext "X.SOL").2 ∈ ALLOWED_EVM_EXTENSIONS
     <-> ~ rejected (upload Evm {| filename := "X.SOL"; file_bytes := [] |}
                       Sample.empty_world).2)
  /\ (posixpath.splitext "Token.EXE").2 = ".EXE"
  /\ (upload Evm {| filename := "Token.EXE"; file_bytes := [] |}
        Sample.empty_world).2
     = Raises (HTTPException 400 "File type .exe not allowed.").
Proof.
  split; [|split; reflexivity].
  intros [_ H].
  assert ((posixpath.splitext "X.SOL").2 ∈ ALLOWED_EVM_EXTENSIONS) as Hin.
  { apply H. intros [detail Hd]. vm_compute in Hd. discriminate Hd. }
  apply (route_allowed_spec Evm) in Hin. by destruct Hin.
Qed.



(** C8: the base name is pasted into the glob pattern as it is.  The
    upload of [*.sol] has the base name [*], and its cleanup removes the
    stored artifacts of every contract. *)
Theorem star_upload_removes_other_contracts :
  let up := {| filename := "*.sol"; file_bytes := [] |} in
  base_name (filename up) = "*"
  /\ fs Sample.world !! ["uploaded_contracts"; "evm"; "other.sol"] = Some File
  /\ Str.startswith "other.sol" (base_name (filename up)) = false
  /\ (exists resp, (upload Evm up Sample.world).2 = Returns resp)
  /\ fs (upload Evm up Sample.world).1
       !! ["uploaded_contracts"; "evm"; "other.sol"] = None
  /\ fs (upload Evm up Sample.world).1
       !! ["test_summaries"; "evm"; "other-report.md"] = None.
Proof.
  cbv zeta. split_and!; try (vm_compute; reflexivity).
  eexists. vm_compute. reflexivity.
Qed.

End Examples.

(** * The theorems at work *)

Section Witnesses.

Local Abbreviation upload :=
  (upload_handler Sample.upload Sample.trigger Sample.fetch).
Local Abbreviation results := (results_handler Sample.fetch).

Lemma upload_accepts_iff_tested_extension_allowed_witness :
  (tested_extension "Token.EXE" ∉ route_allowed Evm)
  /\ (upload Evm {| filename := "Token.EXE"; file_bytes := [] |}
        Sample.world).2
     = Raises (HTTPException 400 "File type .exe not allowed.").
Proof.
  assert (tested_extension "Token.EXE" ∉ route_allowed Evm) as H
    by (vm_compute; intros H; discriminate H).
  split; [exact H|].
  exact (proj1 (proj2 (upload_accepts_iff_tested_extension_allowed
           Sample.upload Sample.trigger Sample.fetch Evm
           {| filename := "Token.EXE"; file_bytes := [] |} Sample.world)) H).
Defined.


Lemma rejected_upload_has_no_effect_witness :
  (tested_extension "Token.exe" ∉ route_allowed Evm)
  /\ exists detail,
       upload Evm {| filename := "Token.exe"; file_bytes := [] |} Sample.world
       = (Sample.world, Raises (HTTPException 400 detail)).
Proof.
  assert (tested_extension "Token.exe" ∉ route_allowed Evm) as H
    by (vm_compute; intros H; discriminate H).
  split; [exact H|].
  destruct (rejected_upload_has_no_effect
              Sample.upload Sample.trigger Sample.fetch Evm
              {| filename := "Token.exe"; file_bytes := [] |} Sample.world H)
    as (detail & Hrun & _).
  by exists detail.
Defined.

Lemma results_response_witness :
  exists resp,
    (results Evm "MyToken.sol" Sample.world).2 = Returns resp
    /\ headers resp
       = [("Cache-Control", "no-store, no-cache, must-revalidate, max-age=0")]
    /\ member "aggregated_report" (content resp)
       = Some (JStr "# mytoken-report.md").
Proof.
  destruct (results_response Sample.fetch Evm "MyToken.sol" Sample.world)
    as (_ & Hresp & Hret).
  destruct (Hret (JStr "# mytoken-report.md") eq_refl) as [resp Hrun].
  exists resp. split; [exact Hrun|].
  destruct (Hresp resp Hrun) as (Hh & _ & _ & report & Ha & Hm).
  split; [exact Hh|]. rewrite Hm. f_equal.
  vm_compute in Ha. by injection Ha as <-.
Defined.

Lemma details_independent_of_contents_witness :
  exists resp resp',
    (upload Evm Sample.contract Sample.world).2 = Returns resp
    /\ (upload Evm {| filename := "MyToken.sol"; file_bytes := [] |}
          Sample.empty_world).2 = Returns resp'
    /\ member "details" (content resp') = member "details" (content resp).
Proof.
  destruct (upload Evm Sample.contract Sample.world) as [w' [resp|e]] eqn:H;
    [|vm_compute in H; discriminate H].
  destruct (upload Evm {| filename := "MyToken.sol"; file_bytes := [] |}
              Sample.empty_world) as [v' [resp'|e]] eqn:H';
    [|vm_compute in H'; discriminate H'].
  exists resp, resp'. split_and!; [reflexivity..|].
  exact (proj2 (details_independent_of_contents
                  Sample.upload Sample.trigger Sample.fetch Evm
                  Sample.contract
                  {| filename := "MyToken.sol"; file_bytes := [] |}
                  Sample.world w' Sample.empty_world v' resp resp'
                  eq_refl H H')).
Defined.

Lemma upload_steps_in_order_witness :
  tested_extension (filename Sample.contract) ∈ route_allowed Evm
  /\ exists resp,
       (upload Evm Sample.contract Sample.world).2 = Returns resp
       /\ keys (content resp)
          = ["message"; "filename"; "docker_logs"; "aggregated_report";
             "details"]
       /\ member "docker_logs" (content resp)
          = Some (JStr "tested MyToken.sol").
Proof.
  assert (tested_extension (filename Sample.contract) ∈ route_allowed Evm)
    as H by (vm_compute; reflexivity).
  split; [exact H|].
  destruct (upload_steps_in_order Sample.upload Sample.trigger Sample.fetch
              Evm Sample.contract Sample.world H)
    as (evs & made & _ & _ & _ & _ & _ & _ & Hresp & Hret).
  destruct Hret as [resp Hrun];
    [vm_compute; reflexivity|by eexists..|].
  exists resp. split; [exact Hrun|].
  destruct (Hresp resp Hrun)
    as (_ & _ & _ & logs & report & Hl & _ & _ & Hk & _ & Hd & _).
  split; [exact Hk|]. rewrite Hd. f_equal.
  vm_compute in Hl. by injection Hl as <-.
Defined.




End Witnesses.

(** * Further properties of the cleanup *)

Section CleanupMore.

Context {R : Type}.

Lemma cleanup_target_selected (name type : string) (q : list string) :
  cleanup_target name type q = true <-> selected name type q.
Proof.
  rewrite cleanup_target_spec. unfold selected, glob_hit.
  split; intros (n & Hq & H); exists n; (split; [done|]).
  - apply andb_prop in H as [Hh Hm]. split; [done|].
    intros Hn. by rewrite Hn in Hh.
  - destruct H as [-> Hh]. rewrite andb_true_r.
    destruct (glob.ishidden n); [|done]. by rewrite Hh.
Qed.

(** [os.makedirs] on a path of two components touches these two entries
    only. *)
Lemma makedirs_two_touches (a t : string) (fs fs' : FS) (r : outcome unit)
    (q : list string) :
  os.makedirs [a; t] fs = (fs', r) ->
  q ≠ [a] -> q ≠ [a; t] -> fs' !! q = fs !! q.
Proof.
  unfold os.makedirs. cbn. intros H Hq1 Hq2. revert H.
  unfold os.mkdir. cbn.
  repeat (case_match; simplify_eq; cbn in * );
    intros; simplify_eq; rewrite ?lookup_insert_ne by done; done.
Qed.

(** [os.makedirs] changes nothing when the directory is there. *)
Lemma makedirs_two_noop (a t : string) (fs : FS) :
  is_Some (fs !! [a]) -> fs !! [a; t] = Some Dir ->
  os.makedirs [a; t] fs = (fs, Returns tt).
Proof.
  intros Ha Ht. unfold os.makedirs. cbn. unfold os.mkdir, os.path_exists,
    os.path_isdir. cbn.
  rewrite (bool_decide_eq_true_2 (_ ∨ is_Some (fs !! [a]))) by (by right).
  cbn.
  rewrite (bool_decide_eq_true_2 (_ ∨ is_Some (fs !! [a; t])))
    by (right; by rewrite Ht).
  rewrite (bool_decide_eq_true_2 ([a] = [] ∨ is_Some (fs !! [a])))
    by (by right).
  cbn.
  destruct (bool_decide ([a] = [] ∨ fs !! [a] = Some Dir)); cbn;
    by rewrite (bool_decide_eq_true_2 ([a; t] = [] ∨ fs !! [a; t] = Some Dir))
      by (by right).
Qed.

Lemma makedirs_two_returns (a t : string) (fs fs' : FS) :
  os.makedirs [a; t] fs = (fs', Returns tt) ->
  is_Some (fs' !! [a]) /\ fs' !! [a; t] = Some Dir.
Proof.
  intros H. split.
  - destruct (fs !! [a]) as [x|] eqn:Ha.
    + apply makedirs_adds_dirs in H.
      destruct (H [a]) as [E|[E _]]; rewrite Ha in E; [by rewrite E|done].
    + revert H. unfold os.makedirs. cbn.
      unfold os.mkdir, os.path_exists, os.path_isdir. cbn.
      rewrite (bool_decide_eq_false_2 ([a] = [] ∨ is_Some (fs !! [a])))
        by (rewrite Ha; by intros [|[? ?]]).
      cbn.
      repeat (case_match; simplify_eq; cbn in * ); intros; simplify_eq;
        rewrite ?lookup_insert_ne by done; by rewrite ?lookup_insert_eq.
  - apply makedirs_returns_isdir in H.
    apply bool_decide_eq_true in H as [|]; done.
Qed.

(** A cleanup that returns, with its intermediate file systems. *)
Lemma cleanup_returns_inv (name type : string) (w w' : World R) :
  cleanup_old_artifacts name type w = (w', Returns tt) ->
  exists (fs1 fs2 : FS) (l1 l2 : list (list string)),
    os.makedirs ["uploaded_contracts"; type] (fs w) = (fs1, Returns tt)
    /\ os.makedirs ["test_summaries"; type] fs1 = (fs2, Returns tt)
    /\ l1 = glob.glob fs2 (["uploaded_contracts"; type] ++ [name +:+ "*"])
    /\ l2 = glob.glob (remove_files l1 fs2)
              (["test_summaries"; type] ++ [name +:+ "*"])
    /\ fs w' = remove_files l2 (remove_files l1 fs2)
    /\ remote w' = remote w
    /\ trace w' = trace w
                  ++ [EvMakedirs ["uploaded_contracts"; type];
                      EvMakedirs ["test_summaries"; type]]
                  ++ (EvRemove <$> l1) ++ (EvRemove <$> l2).
Proof.
  rewrite cleanup_run. cbv zeta.
  destruct (os.makedirs _ (fs w)) as [fs1 [[]|e]] eqn:E1; [|done].
  destruct (os.makedirs _ fs1) as [fs2 [[]|e]] eqn:E2; [|done].
  intros [= <-]. by eexists fs1, fs2, _, _.
Qed.

Lemma lookup_remove_files_cases (files : list (list string)) (fs : FS)
    (q : list string) :
  remove_files files fs !! q = fs !! q
  \/ (fs !! q = Some File /\ remove_files files fs !! q = None).
Proof.
  rewrite lookup_remove_files. destruct (decide _) as [[_ ?]|]; auto.
Qed.

Lemma remove_files_id (files : list (list string)) (fs : FS) :
  (forall p, p ∈ files -> fs !! p ≠ Some File) -> remove_files files fs = fs.
Proof.
  intros H. apply map_eq. intros q. rewrite lookup_remove_files.
  destruct (decide _) as [[Hin Hq]|]; [|done]. by apply H in Hin.
Qed.

(** The file system after any run of the cleanup, returning or raising:
    some directories were added, and then entries were only removed. *)
Lemma cleanup_fs_any (name type : string) (w : World R) :
  exists fs2 : FS,
    adds_dirs (fs w) fs2
    /\ (forall q, q ∉ artifact_dirs type -> fs2 !! q = fs w !! q)
    /\ forall q,
         fs (cleanup_old_artifacts name type w).1 !! q = fs2 !! q
         \/ ((cleanup_old_artifacts name type w).2 = Returns tt
             /\ fs2 !! q = Some File
             /\ fs (cleanup_old_artifacts name type w).1 !! q = None).
Proof.
  assert (forall (a : string) (fs fs' : FS) (r : outcome unit) q,
            os.makedirs [a; type] fs = (fs', r) ->
            (a = "uploaded_contracts" \/ a = "test_summaries") ->
            q ∉ artifact_dirs type -> fs' !! q = fs !! q) as Htouch.
  { intros a fs0 fs' r q H Ha Hq. eapply makedirs_two_touches; [done|..];
      intros ->; apply Hq; unfold artifact_dirs; destruct Ha as [-> | ->];
      set_solver. }
  destruct (cleanup_old_artifacts name type w) as [w' [[]|e]] eqn:Hrun.
  - apply cleanup_returns_inv in Hrun
      as (fs1 & fs2 & l1 & l2 & E1 & E2 & _ & _ & Hfs & _).
    exists fs2. split_and!.
    + eapply adds_dirs_trans; by eapply makedirs_adds_dirs.
    + intros q Hq. rewrite (Htouch _ _ _ _ q E2), (Htouch _ _ _ _ q E1); auto.
    + intros q. cbn [fst snd]. rewrite Hfs.
      destruct (lookup_remove_files_cases l2 (remove_files l1 fs2) q)
        as [->|[H2 ->]];
        destruct (lookup_remove_files_cases l1 fs2 q) as [E|[H1 E]];
        rewrite ?E in *; auto.
  - revert Hrun. rewrite cleanup_run. cbv zeta.
    destruct (os.makedirs _ (fs w)) as [fs1 [[]|e1]] eqn:E1.
    + destruct (os.makedirs _ fs1) as [fs2 [[]|e2]] eqn:E2; [done|].
      intros [= <- <-]. exists fs2. split_and!.
      * eapply adds_dirs_trans; by eapply makedirs_adds_dirs.
      * intros q Hq.
        rewrite (Htouch _ _ _ _ q E2), (Htouch _ _ _ _ q E1); auto.
      * intros q. by left.
    + intros [= <- <-]. exists fs1. split_and!.
      * by eapply makedirs_adds_dirs.
      * intros q Hq. rewrite (Htouch _ _ _ _ q E1); auto.
      * intros q. by left.
Qed.

(** What can happen to an entry in a run of the cleanup. *)
Lemma cleanup_lookup_any (name type : string) (w : World R)
    (q : list string) (x : node) :
  fs w !! q = Some x ->
  fs (cleanup_old_artifacts name type w).1 !! q = Some x
  \/ ((cleanup_old_artifacts name type w).2 = Returns tt
      /\ x = File
      /\ selected name type q
      /\ fs (cleanup_old_artifacts name type w).1 !! q = None).
Proof.
  intros Hx.
  destruct (cleanup_old_artifacts name type w) as [w' [[]|e]] eqn:Hrun.
  - apply cleanup_final_fs in Hrun as (fs2 & Hadd & _ & _ & Hlook).
    assert (fs2 !! q = Some x) as Hx2
      by (destruct (Hadd q) as [->|[? ?]]; congruence).
    cbn [fst snd]. rewrite Hlook, Hx2.
    destruct (bool_decide (Some x = Some File)) eqn:Hb; [|by left].
    destruct (cleanup_target name type q) eqn:Ht; [|by left].
    right. apply bool_decide_eq_true in Hb as [= ->].
    by apply cleanup_target_selected in Ht.
  - left. destruct (cleanup_fs_any name type w) as (fs2 & Hadd & _ & Hlook).
    rewrite Hrun in Hlook. cbn [fst snd] in *.
    destruct (Hlook q) as [->|[[=] _]].
    destruct (Hadd q) as [->|[? ?]]; congruence.
Qed.



(** X3.  The cleanup is idempotent: run again after it returned, it
    returns again and leaves the file system as the first run left it. *)
Theorem cleanup_idempotent (name type : string) (w w1 : World R) :
  cleanup_old_artifacts name type w = (w1, Returns tt) ->
  exists w2,
    cleanup_old_artifacts name type w1 = (w2, Returns tt)
    /\ fs w2 = fs w1.
Proof.
  intros Hrun.
  pose proof Hrun as (fs2' & _ & _ & _ & Hlook)%cleanup_final_fs.
  pose proof Hrun as [D1 D2]%cleanup_creates_directories.
  apply cleanup_returns_inv in Hrun
    as (fs1 & fs2 & l1 & l2 & E1 & E2 & -> & -> & Hfs & _).
  assert (forall a : string, is_Some (fs2 !! [a]) -> is_Some (fs w1 !! [a]))
    as Htop.
  { intros a [y Hy]. rewrite Hfs.
    rewrite lookup_remove_files, decide_False;
      [rewrite lookup_remove_files, decide_False; [by rewrite Hy|]|];
      intros [(n & [=] & _)%elem_of_glob _]. }
  assert (is_Some (fs w1 !! ["uploaded_contracts"])) as U1.
  { apply Htop. apply makedirs_two_returns in E1 as [[y Hy] _].
    apply makedirs_adds_dirs in E2.
    destruct (E2 ["uploaded_contracts"]) as [->|[? ?]]; [by rewrite Hy|congruence]. }
  assert (is_Some (fs w1 !! ["test_summaries"])) as U2.
  { apply Htop. by apply makedirs_two_returns in E2 as [? _]. }
  assert (forall d p,
            p ∈ glob.glob (fs w1) (os.path_join d (name +:+ "*")) ->
            (d = ["uploaded_contracts"; type] \/ d = ["test_summaries"; type]) ->
            fs w1 !! p ≠ Some File) as Hnofile.
  { intros d p (n & -> & _ & _ & Hh & Hm)%elem_of_glob Hd.
    assert (cleanup_target name type (d ++ [n]) = true) as Ht.
    { apply cleanup_target_selected. exists n. split_and!; [|done|].
      - unfold artifact_entry. destruct Hd as [-> | ->]; auto.
      - intros Hn. destruct (glob.ishidden name); [done|].
        by rewrite Hh in Hn. }
    rewrite Hlook, Ht, andb_true_r.
    case_bool_decide as Hb; [done|]. done. }
  rewrite cleanup_run. cbv zeta.
  rewrite (makedirs_two_noop _ _ _ U1 D1), (makedirs_two_noop _ _ _ U2 D2).
  rewrite (remove_files_id _ (fs w1))
    by (intros p Hp; eapply (Hnofile ["uploaded_contracts"; type]); auto).
  rewrite (remove_files_id _ (fs w1))
    by (intros p Hp; eapply (Hnofile ["test_summaries"; type]); auto).
  by eexists.
Qed.


(** The file system a returning cleanup leaves, from the one its two
    [makedirs] made. *)
Lemma cleanup_final_fs_explicit (name type : string) (w w' : World R) :
  cleanup_old_artifacts name type w = (w', Returns tt) ->
  exists fs1 fs2 : FS,
    os.makedirs ["uploaded_contracts"; type] (fs w) = (fs1, Returns tt)
    /\ os.makedirs ["test_summaries"; type] fs1 = (fs2, Returns tt)
    /\ forall q : list string,
         fs w' !! q =
         if bool_decide (fs2 !! q = Some File) && cleanup_target name type q
         then None else fs2 !! q.
Proof.
  intros Hrun.
  pose proof Hrun as (fs2' & Hadd' & _ & _ & Hlook)%cleanup_final_fs.
  apply cleanup_returns_inv in Hrun
    as (fs1 & fs2 & l1 & l2 & E1 & E2 & _ & _ & Hfs & _).
  exists fs1, fs2. split_and!; [done..|].
  assert (adds_dirs (fs w) fs2) as Hadd
    by (eapply adds_dirs_trans; by eapply makedirs_adds_dirs).
  assert (fs2' = fs2) as ->; [|done].
  apply map_eq. intros q.
  assert (fs w' !! q = fs2 !! q
          \/ (fs2 !! q = Some File /\ fs w' !! q = None)) as Hcases.
  { rewrite Hfs.
    destruct (lookup_remove_files_cases l2 (remove_files l1 fs2) q)
      as [->|[H2 ->]];
      destruct (lookup_remove_files_cases l1 fs2 q) as [E|[H1 E]];
      rewrite ?E in *; auto. }
  destruct (fs w !! q) as [x|] eqn:Hx.
  - destruct (Hadd q) as [->|[? ?]], (Hadd' q) as [->|[? ?]]; congruence.
  - destruct (Hadd' q) as [E'|[_ E']], (Hadd q) as [E|[_ E]];
      rewrite ?Hx in *; try congruence.
    + destruct Hcases as [Hc|[Hc _]]; [|congruence].
      rewrite Hlook, E' in Hc. simpl in Hc. congruence.
    + destruct Hcases as [Hc|[Hc _]]; [|congruence].
      rewrite Hlook, E' in Hc. rewrite bool_decide_eq_false_2 in Hc by done.
      simpl in Hc. congruence.
Qed.

(** A cleanup run after one for the same contract type returned: it
    returns too, creates nothing, and removes what it selects. *)
Lemma cleanup_after_cleanup (a b type : string) (w w1 : World R) :
  cleanup_old_artifacts a type w = (w1, Returns tt) ->
  exists w2,
    cleanup_old_artifacts b type w1 = (w2, Returns tt)
    /\ forall q : list string,
         fs w2 !! q =
         if bool_decide (fs w1 !! q = Some File) && cleanup_target b type q
         then None else fs w1 !! q.
Proof.
  intros Hrun.
  pose proof Hrun as [D1 D2]%cleanup_creates_directories.
  pose proof Hrun as (fs1 & fs2 & E1 & E2 & Hlook)%cleanup_final_fs_explicit.
  assert (forall x : string, is_Some (fs2 !! [x]) -> is_Some (fs w1 !! [x]))
    as Htop.
  { intros x [y Hy]. rewrite Hlook, Hy.
    by replace (cleanup_target a type [x]) with false;
      [rewrite andb_false_r|]. }
  assert (is_Some (fs w1 !! ["uploaded_contracts"])) as U1.
  { apply Htop. apply makedirs_two_returns in E1 as [[y Hy] _].
    apply makedirs_adds_dirs in E2.
    destruct (E2 ["uploaded_contracts"]) as [->|[? ?]]; [by rewrite Hy|congruence]. }
  assert (is_Some (fs w1 !! ["test_summaries"])) as U2.
  { apply Htop. by apply makedirs_two_returns in E2 as [? _]. }
  destruct (cleanup_old_artifacts b type w1) as [w2 r] eqn:Hb.
  assert (r = Returns tt) as ->.
  { revert Hb. rewrite cleanup_run. cbv zeta.
    rewrite (makedirs_two_noop _ _ _ U1 D1), (makedirs_two_noop _ _ _ U2 D2).
    by intros [= _ <-]. }
  exists w2. split; [done|].
  apply cleanup_final_fs_explicit in Hb as (g1 & g2 & G1 & G2 & Hlook2).
  rewrite (makedirs_two_noop _ _ _ U1 D1) in G1. injection G1 as <-.
  rewrite (makedirs_two_noop _ _ _ U2 D2) in G2. injection G2 as <-.
  done.
Qed.

(** X5.  Cleanups for two base names of one contract type commute: run
    one after the other in either order, both return and leave the same
    local file system. *)
Theorem cleanup_commutes (a b type : string) (w w1 w2 : World R) :
  cleanup_old_artifacts a type w = (w1, Returns tt) ->
  cleanup_old_artifacts b type w1 = (w2, Returns tt) ->
  exists v1 v2,
    cleanup_old_artifacts b type w = (v1, Returns tt)
    /\ cleanup_old_artifacts a type v1 = (v2, Returns tt)
    /\ fs v2 = fs w2.
Proof.
  intros Ha Hb.
  pose proof Ha as (fs1 & fs2 & E1 & E2 & La)%cleanup_final_fs_explicit.
  destruct (cleanup_after_cleanup a b type w w1 Ha) as (w2' & Hb' & Lb).
  rewrite Hb in Hb'. injection Hb' as <-.
  destruct (cleanup_old_artifacts b type w) as [v1 r] eqn:Hv1.
  assert (r = Returns tt) as ->.
  { revert Hv1. rewrite cleanup_run. cbv zeta. rewrite E1, E2.
    by intros [= _ <-]. }
  pose proof Hv1 as (g1 & g2 & G1 & G2 & Lv1)%cleanup_final_fs_explicit.
  rewrite E1 in G1. injection G1 as <-. rewrite E2 in G2. injection G2 as <-.
  destruct (cleanup_after_cleanup b a type w v1 Hv1) as (v2 & Hv2 & Lv2).
  exists v1, v2. split_and!; [done..|].
  apply map_eq. intros q. rewrite Lv2, Lb, Lv1, La.
  destruct (fs2 !! q) as [[]|]; simpl;
    destruct (cleanup_target a type q), (cleanup_target b type q); simpl;
    rewrite ?bool_decide_eq_true_2 by done; done.
Qed.

End CleanupMore.

(** * Further facts about file names *)

Section NameFacts.

Import Str.

Lemma rfind_bounds c s : -1 <= rfind c s < len s.
Proof.
  unfold len. induction s as [|a s IH]; simpl String.length; simpl rfind; [lia|].
  destruct (Z.leb_spec 0 (rfind c s)); [lia|].
  destruct (decide (a = c)); lia.
Qed.

Lemma len_app s t : len (s +:+ t) = len s + len t.
Proof.
  unfold len. induction s as [|a s IH].
  - change (EmptyString +:+ t) with t. simpl. lia.
  - change (String a s +:+ t) with (String a (s +:+ t)).
    simpl String.length. lia.
Qed.

Lemma rfind_app c s t :
  rfind c (s +:+ t)
  = if 0 <=? rfind c t then len s + rfind c t else rfind c s.
Proof.
  induction s as [|a s IH].
  - change (EmptyString +:+ t) with t.
    pose proof (rfind_bounds c t). unfold len. simpl.
    destruct (Z.leb_spec 0 (rfind c t)); lia.
  - change (String a s +:+ t) with (String a (s +:+ t)).
    cbn [rfind]. rewrite IH.
    pose proof (rfind_bounds c t). pose proof (rfind_bounds c s).
    replace (len (String a s)) with (len s + 1) by (unfold len; simpl; lia).
    destruct (Z.leb_spec 0 (rfind c t)); [|done].
    destruct (Z.leb_spec 0 (len s + rfind c t)); unfold len in *; lia.
Qed.

Lemma rfind_absent c s : contains c s = false -> rfind c s = -1.
Proof.
  induction s as [|a s IH]; simpl; [done|].
  intros [Ha Hs]%orb_false_elim. rewrite (IH Hs). simpl.
  apply bool_decide_eq_false in Ha. by rewrite decide_False.
Qed.

Lemma contains_app c s t : contains c (s +:+ t) = contains c s || contains c t.
Proof.
  induction s as [|a s IH]; [done|].
  change (String a s +:+ t) with (String a (s +:+ t)). simpl.
  by rewrite IH, orb_assoc.
Qed.

Lemma all_chr_contains c a s :
  all_chr c s = true -> a ≠ c -> contains a s = false.
Proof.
  intros H Hne. induction s as [|b s IH]; [done|]. simpl in *.
  apply andb_prop in H as [->%bool_decide_eq_true Hs].
  rewrite IH by done. by rewrite bool_decide_eq_false_2.
Qed.

Lemma rfind_all c s :
  all_chr c s = true -> s ≠ EmptyString -> rfind c s = len s - 1.
Proof.
  induction s as [|a s IH]; [done|]. simpl. intros [Ha Hs]%andb_prop _.
  apply bool_decide_eq_true in Ha as ->.
  destruct s as [|b s].
  - simpl. by rewrite decide_True.
  - rewrite IH by done. unfold len. simpl String.length.
    destruct (Z.leb_spec 0 (Z.of_nat (S (String.length s)) - 1)); lia.
Qed.

Lemma drop_app_len s t : drop (String.length s) (s +:+ t) = t.
Proof. induction s as [|a s IH]; [by destruct t|]. apply IH. Qed.

Lemma drop_app_ge s t n :
  drop (String.length s + n) (s +:+ t) = drop n t.
Proof. induction s as [|a s IH]; [done|]. apply IH. Qed.

Lemma take_app_len s t : take (String.length s) (s +:+ t) = s.
Proof.
  induction s as [|a s IH]; [by destruct t|].
  change (String a s +:+ t) with (String a (s +:+ t)). simpl. by rewrite IH.
Qed.

Lemma take_drop s n : take n s +:+ drop n s = s.
Proof.
  revert s. induction n as [|n IH]; intros [|a s]; try done.
  simpl. change (String a (take n s) +:+ drop n s)
    with (String a (take n s +:+ drop n s)). by rewrite IH.
Qed.

Lemma at_index_all c s (i : nat) :
  all_chr c s = true -> (i < String.length s)%nat ->
  at_index s (Z.of_nat i) = String c EmptyString.
Proof.
  unfold at_index. rewrite Nat2Z.id. revert i.
  induction s as [|a s IH]; intros i H Hi; simpl in Hi; [lia|].
  simpl in H. apply andb_prop in H as [->%bool_decide_eq_true Hs].
  destruct i as [|i]; [done|]. simpl. apply IH; [done|lia].
Qed.

(** The loop of [splitext] finds nothing in a run of dots. *)
Lemma has_non_dot_dots d dots rest (i steps : nat) :
  all_chr "." dots = true ->
  (i + steps <= String.length dots)%nat ->
  posixpath.has_non_dot (d +:+ dots +:+ rest)
    (Z.of_nat (String.length d + i)) steps = false.
Proof.
  intros Hdots. revert i. induction steps as [|steps IH]; intros i Hi; [done|].
  simpl.
  replace (at_index (d +:+ dots +:+ rest) (Z.of_nat (String.length d + i)))
    with ".".
  - simpl.
    replace (Z.of_nat (String.length d + i) + 1)
      with (Z.of_nat (String.length d + S i)) by lia.
    apply IH. lia.
  - unfold at_index. rewrite Nat2Z.id, drop_app_ge.
    pose proof (at_index_all "." dots i Hdots ltac:(lia)) as H.
    unfold at_index in H. rewrite Nat2Z.id in H.
    clear -H Hi. revert i H Hi.
    induction dots as [|a s IHs]; intros i H Hi; simpl in Hi; [lia|].
    destruct i as [|i]; [by destruct s|].
    apply (IHs i); [done|lia].
Qed.

(** A path whose last component has no dot after its leading dots has no
    extension. *)
Lemma splitext_no_extension d dots rest :
  (d = EmptyString \/ exists d', d = d' +:+ "/") ->
  all_chr "." dots = true ->
  contains "." rest = false ->
  contains "/" rest = false ->
  posixpath.splitext (d +:+ dots +:+ rest) = (d +:+ dots +:+ rest, EmptyString).
Proof.
  intros Hd Hdots Hr1 Hr2. unfold posixpath.splitext.
  assert (rfind "/" (d +:+ dots +:+ rest) = len d - 1) as Hsep.
  { rewrite rfind_app, rfind_app, (rfind_absent _ rest Hr2).
    rewrite (rfind_absent "/" dots) by (by apply (all_chr_contains ".")).
    simpl. destruct Hd as [->|[d' ->]]; [done|].
    rewrite rfind_app, len_app. simpl. unfold len. simpl. lia. }
  rewrite Hsep.
  destruct (decide (dots = EmptyString)) as [->|Hne].
  - assert (rfind "." (d +:+ EmptyString +:+ rest) <= len d - 1) as Hle.
    { change (EmptyString +:+ rest) with rest.
      rewrite rfind_app, (rfind_absent _ rest Hr1). simpl.
      destruct Hd as [->|[d' ->]]; [done|].
      rewrite rfind_app, len_app. simpl.
      pose proof (rfind_bounds "." d'). unfold len in *. simpl. lia. }
    destruct (Z.ltb_spec (len d - 1) (rfind "." (d +:+ EmptyString +:+ rest)));
      [lia|done].
  - assert (0 < len dots) as Hlen
      by (destruct dots; [done|unfold len; simpl; lia]).
    assert (rfind "." (d +:+ dots +:+ rest) = len d + len dots - 1) as Hdot.
    { rewrite rfind_app, rfind_app, (rfind_absent _ rest Hr1).
      change (0 <=? -1) with false. cbv iota.
      rewrite (rfind_all "." dots) by done.
      destruct (Z.leb_spec 0 (len dots - 1)); lia. }
    rewrite Hdot.
    replace (len d - 1 + 1) with (Z.of_nat (String.length d + 0))
      by (unfold len; lia).
    rewrite has_non_dot_dots; [by rewrite andb_false_r|done|].
    unfold len in *. lia.
Qed.

(** [split] ends with the text after the last separator. *)
Lemma split_rfind c s :
  (rfind c s < 0 -> split c s = [s])
  /\ (0 <= rfind c s ->
      exists l, l ≠ []
        /\ split c s = l ++ [drop (Z.to_nat (rfind c s + 1)) s]).
Proof.
  induction s as [|a s [IH1 IH2]]; [split; [done|simpl; lia]|].
  pose proof (rfind_bounds c s) as Hb.
  cbn [rfind split].
  destruct (Z.leb_spec 0 (rfind c s)) as [Hr|Hr].
  - destruct (IH2 Hr) as (l & Hl & El). split; [lia|]. intros _.
    replace (Z.to_nat (rfind c s + 1 + 1)) with (S (Z.to_nat (rfind c s + 1)))
      by lia.
    cbn [drop]. destruct (decide (a = c)).
    + exists (EmptyString :: l). by rewrite El.
    + rewrite El. destruct l as [|h l]; [done|]. by exists (String a h :: l).
  - rewrite (IH1 Hr). destruct (decide (a = c)); split; try lia; try done.
    intros _. by exists [EmptyString].
Qed.

Lemma name_last_component p :
  let c := drop (Z.to_nat (rfind "/" p + 1)) p in
  c ≠ EmptyString -> c ≠ "." -> pathlib.name p = c.
Proof.
  cbv zeta. intros H1 H2. unfold pathlib.name, pathlib.tail_parts.
  pose proof (rfind_bounds "/" p).
  destruct (split_rfind "/" p) as [S1 S2].
  assert (exists l, split "/" p = l ++ [drop (Z.to_nat (rfind "/" p + 1)) p])
    as [l ->].
  { destruct (Z.leb_spec 0 (rfind "/" p)) as [Hr|Hr].
    - destruct (S2 Hr) as (l & _ & ->). by exists l.
    - exists []. rewrite (S1 Hr). by replace (rfind "/" p + 1) with 0 by lia. }
  rewrite filter_app, filter_cons_True, filter_nil by done.
  apply last_last.
Qed.

Lemma length_drop n s : String.length (drop n s) = (String.length s - n)%nat.
Proof. revert s. induction n as [|n IH]; intros [|a s]; simpl; auto. Qed.

Lemma drop_drop n m s : drop n (drop m s) = drop (m + n) s.
Proof.
  revert s. induction m as [|m IH]; intros s; [done|].
  destruct s as [|a s]; [by destruct n|]. apply IH.
Qed.

Lemma rfind_drop c (n : nat) s :
  Z.of_nat n <= rfind c s -> rfind c (drop n s) = rfind c s - Z.of_nat n.
Proof.
  revert s. induction n as [|n IH]; intros s H; [simpl; lia|].
  destruct s as [|a s]; [simpl in H; lia|].
  pose proof (rfind_bounds c s). cbn [rfind drop] in *.
  destruct (Z.leb_spec 0 (rfind c s)).
  - rewrite IH; lia.
  - destruct (decide (a = c)); lia.
Qed.

Lemma take_rfind c s :
  0 <= rfind c s ->
  take (Z.to_nat (rfind c s + 1)) s
  = take (Z.to_nat (rfind c s)) s +:+ String c EmptyString.
Proof.
  induction s as [|a s IH]; [simpl; lia|].
  pose proof (rfind_bounds c s). cbn [rfind].
  destruct (Z.leb_spec 0 (rfind c s)) as [Hr|Hr].
  - intros _.
    replace (Z.to_nat (rfind c s + 1 + 1)) with (S (Z.to_nat (rfind c s + 1)))
      by lia.
    replace (Z.to_nat (rfind c s + 1)) with (S (Z.to_nat (rfind c s))) at 2
      by lia.
    cbn [take]. rewrite IH by done. done.
  - destruct (decide (a = c)) as [->|]; [done|lia].
Qed.

Lemma take_nonempty n s :
  (0 < n)%nat -> s ≠ EmptyString -> take n s ≠ EmptyString.
Proof. destruct n, s; simpl; try done; lia. Qed.

Lemma has_non_dot_steps p i steps :
  posixpath.has_non_dot p i steps = true -> (0 < steps)%nat.
Proof. destruct steps; [done|lia]. Qed.

Lemma app_assoc_str s t u : (s +:+ t) +:+ u = s +:+ t +:+ u.
Proof.
  induction s as [|a s IH]; [done|].
  change (String a (s +:+ t) +:+ u = String a (s +:+ t +:+ u)).
  change (String a ((s +:+ t) +:+ u) = String a (s +:+ t +:+ u)).
  by rewrite IH.
Qed.

Lemma take_app_ge s t n :
  take (String.length s + n) (s +:+ t) = s +:+ take n t.
Proof.
  induction s as [|a s IH]; [done|].
  change (String a s +:+ t) with (String a (s +:+ t)). simpl.
  by rewrite IH.
Qed.

(** When the extension has a character after its dot, [splitext] and
    [Path.stem] cut the file name at the same place. *)
Lemma extension_decomposition p :
  (2 <= String.length (posixpath.splitext p).2)%nat ->
  exists d,
    p = d +:+ pathlib.stem p +:+ (posixpath.splitext p).2
    /\ (posixpath.splitext p).1 = d +:+ pathlib.stem p
    /\ (d = EmptyString \/ exists d', d = d' +:+ "/")
    /\ pathlib.stem p ≠ EmptyString.
Proof.
  unfold posixpath.splitext.
  pose proof (rfind_bounds "/" p) as Hs. pose proof (rfind_bounds "." p) as Hd.
  set (sep := rfind "/" p) in *. set (dot := rfind "." p) in *.
  destruct (Z.ltb_spec sep dot) as [Hlt|]; [|simpl; lia].
  destruct (posixpath.has_non_dot _ _ _) eqn:Hnd; [|simpl; lia].
  apply has_non_dot_steps in Hnd.
  cbn [andb fst snd]. unfold slice_to, slice_from. intros Hext.
  rewrite length_drop in Hext. unfold len in *.
  set (c := drop (Z.to_nat (sep + 1)) p).
  assert (String.length c = (String.length p - Z.to_nat (sep + 1))%nat) as Hc
    by apply length_drop.
  assert (pathlib.name p = c) as Hname.
  { apply name_last_component; fold sep; fold c; intros E; rewrite E in Hc;
      simpl in Hc; lia. }
  assert (rfind "." c = dot - (sep + 1)) as Hi.
  { unfold c. rewrite rfind_drop; fold dot; lia. }
  assert (pathlib.stem p = take (Z.to_nat (dot - (sep + 1))) c) as Hstem.
  { unfold pathlib.stem. rewrite Hname, Hi. unfold slice_to, len.
    destruct (Z.ltb_spec 0 (dot - (sep + 1))); [|lia].
    destruct (Z.ltb_spec (dot - (sep + 1)) (Z.of_nat (String.length c) - 1));
      [done|lia]. }
  assert (drop (Z.to_nat dot) p = drop (Z.to_nat (dot - (sep + 1))) c) as Hdrop.
  { unfold c. rewrite drop_drop. f_equal. lia. }
  exists (take (Z.to_nat (sep + 1)) p).
  assert (p = take (Z.to_nat (sep + 1)) p +:+ pathlib.stem p
              +:+ drop (Z.to_nat dot) p) as Hp.
  { rewrite Hstem, Hdrop, take_drop. fold c. by rewrite take_drop. }
  split_and!.
  - done.
  - assert (forall s X Y, s = X +:+ Y -> take (String.length X) s = X) as L
      by (intros s X Y ->; apply take_app_len).
    replace (Z.to_nat dot)
      with (String.length (take (Z.to_nat (sep + 1)) p +:+ pathlib.stem p)).
    + apply (L p _ (drop (Z.to_nat dot) p)). by rewrite app_assoc_str.
    + assert (forall n s, (n <= String.length s)%nat ->
                String.length (take n s) = n) as Ht.
      { induction n as [|n IH]; intros [|a s] ?; simpl in *; try lia.
        rewrite IH; lia. }
      assert (forall s t, String.length (s +:+ t)
                = (String.length s + String.length t)%nat) as Ha.
      { intros s t. pose proof (len_app s t). unfold len in *. lia. }
      rewrite Ha, Hstem, !Ht; lia.
  - destruct (Z.leb_spec 0 sep) as [H0|H0].
    + right. exists (take (Z.to_nat sep) p). by apply take_rfind.
    + left. by replace (sep + 1) with 0 by lia.
  - rewrite Hstem. apply take_nonempty; [lia|].
    intros E. rewrite E in Hc. simpl in Hc. lia.
Qed.

Lemma has_non_dot_shift D f (i : Z) n :
  0 <= i ->
  posixpath.has_non_dot (D +:+ f) (len D + i) n = posixpath.has_non_dot f i n.
Proof.
  revert i. induction n as [|n IH]; intros i Hi; [done|]. simpl.
  replace (len D + i + 1) with (len D + (i + 1)) by lia.
  rewrite IH by lia. unfold at_index, len.
  replace (Z.to_nat (Z.of_nat (String.length D) + i))
    with (String.length D + Z.to_nat i)%nat by lia.
  by rewrite drop_app_ge.
Qed.

(** A directory part before a plain file name changes neither the
    extension nor the last component. *)
Lemma splitext_dir d f :
  contains "/" f = false ->
  posixpath.splitext (d +:+ "/" +:+ f)
  = (d +:+ "/" +:+ (posixpath.splitext f).1, (posixpath.splitext f).2).
Proof.
  intros Hf. rewrite <- !app_assoc_str. set (D := d +:+ "/").
  assert (len D = len d + 1) as HD by (unfold D; by rewrite len_app).
  pose proof (rfind_bounds "." f) as Hb. pose proof (rfind_bounds "." d) as Hbd.
  unfold posixpath.splitext.
  rewrite (rfind_absent "/" f Hf).
  assert (rfind "/" (D +:+ f) = len D - 1) as ->.
  { rewrite rfind_app, (rfind_absent "/" f Hf). change (0 <=? -1) with false.
    cbv iota. rewrite HD. unfold D. rewrite rfind_app. simpl. lia. }
  rewrite (rfind_app "." D f).
  destruct (Z.leb_spec 0 (rfind "." f)) as [Hj|Hj].
  - destruct (Z.ltb_spec (len D - 1) (len D + rfind "." f)); [|lia].
    destruct (Z.ltb_spec (-1) (rfind "." f)); [|lia].
    replace (len D - 1 + 1) with (len D + 0) by lia.
    replace (len D + rfind "." f - (len D + 0)) with (rfind "." f - (-1 + 1))
      by lia.
    rewrite has_non_dot_shift by lia. change (-1 + 1) with 0.
    destruct (posixpath.has_non_dot f 0 _); [|done].
    cbn [andb fst snd]. unfold slice_to, slice_from, len.
    replace (Z.to_nat (Z.of_nat (String.length D) + rfind "." f))
      with (String.length D + Z.to_nat (rfind "." f))%nat by lia.
    by rewrite take_app_ge, drop_app_ge.
  - assert (rfind "." D < len D - 1).
    { rewrite HD. unfold D. rewrite rfind_app. simpl. lia. }
    destruct (Z.ltb_spec (len D - 1) (rfind "." D)); [lia|].
    destruct (Z.ltb_spec (-1) (rfind "." f)); [lia|]. done.
Qed.

Lemma name_dir d f :
  contains "/" f = false -> f ≠ EmptyString -> f ≠ "." ->
  pathlib.name (d +:+ "/" +:+ f) = f /\ pathlib.name f = f.
Proof.
  intros Hf H1 H2.
  assert (drop (Z.to_nat (rfind "/" (d +:+ "/" +:+ f) + 1)) (d +:+ "/" +:+ f) = f)
    as E.
  { rewrite rfind_app. change ("/" +:+ f) with (String "/" f). cbn [rfind].
    rewrite (rfind_absent "/" f Hf). simpl.
    unfold len. replace (Z.to_nat (Z.of_nat (String.length d) + 0 + 1))
      with (String.length d + 1)%nat by lia.
    by rewrite drop_app_ge. }
  assert (drop (Z.to_nat (rfind "/" f + 1)) f = f) as E'
    by (by rewrite (rfind_absent "/" f Hf)).
  split.
  - rewrite <- E at 2. apply name_last_component; by rewrite E.
  - rewrite <- E' at 2. apply name_last_component; by rewrite E'.
Qed.

End NameFacts.

(** * Further properties of the routes *)

(** X6.  Neither the base name nor the report name derived from a file
    name contains a path separator, whatever the file name: the glob
    patterns of the cleanup stay inside the two artifact directories and
    the report is asked for by a plain name. *)
Theorem derived_names_have_no_separator (f : string) :
  Str.contains "/" (base_name f) = false
  /\ Str.contains "/" (base_name f +:+ "*") = false
  /\ Str.contains "/" (report_filename f) = false.
Proof.
  pose proof (base_name_free f) as H. unfold report_filename.
  rewrite !contains_app, H. by split_and!.
Qed.

(** X7.  A directory part in front of a plain file name changes neither
    the extension that is validated nor the base name and the report name:
    [dir/MyToken.sol] is validated, cleaned up and reported as
    [MyToken.sol] is. *)
Theorem directory_part_ignored (d f : string) :
  Str.contains "/" f = false -> f ≠ EmptyString -> f ≠ "." ->
  tested_extension (d +:+ "/" +:+ f) = tested_extension f
  /\ base_name (d +:+ "/" +:+ f) = base_name f
  /\ report_filename (d +:+ "/" +:+ f) = report_filename f.
Proof.
  intros Hf H1 H2.
  assert (pathlib.stem (d +:+ "/" +:+ f) = pathlib.stem f) as Hstem.
  { unfold pathlib.stem. destruct (name_dir d f Hf H1 H2) as [-> ->]. done. }
  unfold tested_extension, report_filename, base_name.
  by rewrite splitext_dir, Hstem.
Qed.

(** X8.  For every file name an upload route accepts, the validator and
    the base name cut the name at the same place: the file name is a
    directory part (empty or ending in a slash), the stem and the
    extension, and the stem is not empty. *)
Theorem accepted_name_decomposition (k : route) (f : string) :
  tested_extension f ∈ route_allowed k ->
  exists d,
    f = d +:+ pathlib.stem f +:+ (posixpath.splitext f).2
    /\ (posixpath.splitext f).1 = d +:+ pathlib.stem f
    /\ (d = EmptyString \/ exists d', d = d' +:+ "/")
    /\ pathlib.stem f ≠ EmptyString.
Proof.
  intros H. apply extension_decomposition.
  rewrite <- length_lower. fold (tested_extension f).
  apply route_allowed_spec in H. destruct k, H as [-> | ->]; simpl; lia.
Qed.

Section RoutesMore.

Context {R : Type}.
Variable remote_upload :
  list Byte.byte -> string -> string -> R -> R * (string + unit).
Variable remote_trigger : string -> string -> R -> R * (string + json).
Variable remote_fetch : string -> string -> R -> R * (string + json).

Local Abbreviation upload :=
  (upload_handler remote_upload remote_trigger remote_fetch).
Local Abbreviation results := (results_handler remote_fetch).

Lemma upload_pipeline_of (k : route) :
  upload k
  = upload_pipeline remote_upload remote_trigger remote_fetch
      (route_allowed k) (route_type k) (route_message k) (route_process k).
Proof. by destruct k. Qed.

(** The local file system after an upload is the one its cleanup left. *)
Lemma upload_fs (k : route) (up : UploadFile) (w : World R) :
  fs (upload k up w).1
  = if decide (tested_extension (filename up) ∈ route_allowed k)
    then fs (cleanup_old_artifacts (base_name (filename up)) (route_type k) w).1
    else fs w.
Proof.
  destruct (decide _) as [Hext|Hext].
  - rewrite upload_pipeline_of, upload_pipeline_run by done.
    destruct (cleanup_old_artifacts _ _ w) as [w1 [[]|e]]; [|done].
    cbv zeta. by repeat case_match.
  - by rewrite upload_pipeline_of, upload_pipeline_rejects.
Qed.

(** X9.  The outcome of an upload is one of four: a response with status
    200, for an allowed extension; HTTP 400, exactly for an extension that
    is not allowed; the [OSError] of the cleanup; or the exception of the
    first operation of the remote runner that raised, each operation being
    called only when the ones before it returned. *)
Theorem upload_outcome_cases (k : route) (up : UploadFile) (w : World R) :
  let type := route_type k in
  let allowed := tested_extension (filename up) ∈ route_allowed k in
  let cleaned := cleanup_old_artifacts (base_name (filename up)) type w in
  let sent := upload_answer remote_upload type up (remote w) in
  let triggered :=
    trigger_answer remote_upload remote_trigger type up (remote w) in
  let fetched :=
    fetch_answer remote_upload remote_trigger remote_fetch type up (remote w) in
  match (upload k up w).2 with
  | Returns resp => allowed /\ status_code resp = 200 /\ headers resp = []
  | Raises (HTTPException code _) => ~ allowed /\ code = 400
  | Raises (OSError e p) => allowed /\ cleaned.2 = Raises (OSError e p)
  | Raises (RemoteError what) =>
      allowed /\ cleaned.2 = Returns tt
      /\ (sent.2 = inl what
          \/ (returned sent.2 /\ triggered.2 = inl what)
          \/ (returned sent.2 /\ returned triggered.2 /\ fetched.2 = inl what))
  end.
Proof.
  cbv zeta.
  destruct (decide (tested_extension (filename up) ∈ route_allowed k))
    as [Hext|Hext].
  - rewrite upload_pipeline_of, upload_pipeline_run by done.
    pose proof (cleanup_remote (base_name (filename up)) (route_type k) w) as Hrem.
    destruct (cleanup_old_artifacts _ _ w) as [w1 [[]|e]] eqn:Hc;
      cbn [fst snd] in *.
    + rewrite Hrem. cbv zeta.
      destruct (upload_answer _ _ _ _).2 as [what|[]]; cbn [snd].
      { split_and!; try done. by left. }
      destruct (trigger_answer _ _ _ _ _).2 as [what|logs]; cbn [snd].
      { split_and!; try done. right. left. split; [by eexists|done]. }
      destruct (fetch_answer _ _ _ _ _ _).2 as [what|report]; cbn [snd];
        [|done].
      split_and!; try done. right. right. split_and!; by try eexists.
    + apply cleanup_raises in Hc as (e' & p & ->). done.
  - by rewrite upload_pipeline_of, upload_pipeline_rejects.
Qed.

(** X10.  No file is accepted by both upload routes: what upload-evm
    accepts, upload-non-evm rejects, and the other way round. *)
Theorem no_file_accepted_by_both_routes (up : UploadFile) (w v : World R) :
  (~ rejected (upload Evm up w).2 -> rejected (upload NonEvm up v).2)
  /\ (~ rejected (upload NonEvm up v).2 -> rejected (upload Evm up w).2).
Proof.
  assert (forall k (x : World R),
            tested_extension (filename up) ∉ route_allowed k ->
            rejected (upload k up x).2) as Hrej.
  { intros k x Hk.
    rewrite upload_pipeline_of, upload_pipeline_rejects by done. by eexists. }
  assert (forall k (x : World R), ~ rejected (upload k up x).2 ->
            tested_extension (filename up) ∈ route_allowed k) as Hacc.
  { intros k x Hk.
    destruct (decide (tested_extension (filename up) ∈ route_allowed k))
      as [|Hno]; [done|].
    by destruct (Hk (Hrej k x Hno)). }
  split; intros H%Hacc%route_allowed_spec; apply Hrej;
    intros H'%route_allowed_spec;
    destruct H as [E|E], H' as [E'|E']; rewrite E in E'; discriminate E'.
Qed.

(** X11.  A file name without an extension is rejected by both upload
    routes with the detail ["File type  not allowed."]: that is every
    name whose last path component has no dot after its leading dots, so
    [README], the empty name, and also [.sol] and [dir/..]. *)
Theorem upload_without_extension_rejected
    (k : route) (up : UploadFile) (w : World R) (d dots rest : string) :
  filename up = d +:+ dots +:+ rest ->
  (d = EmptyString \/ exists d', d = d' +:+ "/") ->
  all_chr "." dots = true ->
  Str.contains "." rest = false ->
  Str.contains "/" rest = false ->
  upload k up w = (w, Raises (HTTPException 400 "File type  not allowed.")).
Proof.
  intros Hf Hd Hdots Hr1 Hr2.
  assert (tested_extension (filename up) = EmptyString) as Hext
    by (unfold tested_extension; by rewrite Hf, splitext_no_extension).
  rewrite upload_pipeline_of, upload_pipeline_rejects, Hext; [done|].
  rewrite Hext. intros H%route_allowed_spec. by destruct k, H.
Qed.

(** X12.  An upload never writes a local file: the only entries it adds
    to the local file system are the directories [uploaded_contracts],
    [test_summaries] and their sub-directory for the contract type. *)
Theorem upload_creates_only_artifact_dirs
    (k : route) (up : UploadFile) (w : World R) (q : list string) :
  fs w !! q = None ->
  is_Some (fs (upload k up w).1 !! q) ->
  q ∈ artifact_dirs (route_type k) /\ fs (upload k up w).1 !! q = Some Dir.
Proof.
  rewrite upload_fs. intros Hq.
  destruct (decide _) as [_|_]; [|rewrite Hq; by intros [? ?]].
  destruct (cleanup_fs_any (base_name (filename up)) (route_type k) w)
    as (fs2 & Hadd & Htouch & Hlook).
  destruct (Hlook q) as [->|(_ & _ & ->)]; [|by intros [? ?]].
  intros Hsome.
  destruct (Hadd q) as [E|[_ E]]; [rewrite E, Hq in Hsome; by destruct Hsome|].
  split; [|done].
  destruct (decide (q ∈ artifact_dirs (route_type k))) as [|Hno]; [done|].
  rewrite (Htouch q Hno), Hq in E. done.
Qed.

(** X13.  When the cleanup of an upload raises, that is when
    [os.makedirs] fails, the upload has called no operation of the remote
    runner and has removed nothing: the remote state is the one before,
    every local entry is still there, and the only events are
    [makedirs]. *)
Theorem failed_cleanup_stops_upload
    (k : route) (up : UploadFile) (w : World R) (e : oserror) (p : list string) :
  (upload k up w).2 = Raises (OSError e p) ->
  remote (upload k up w).1 = remote w
  /\ (forall q x, fs w !! q = Some x -> fs (upload k up w).1 !! q = Some x)
  /\ (forall ev, ev ∈ new_events w (upload k up w).1 ->
        exists dir, ev = EvMakedirs dir).
Proof.
  destruct (decide (tested_extension (filename up) ∈ route_allowed k))
    as [Hext|Hext];
    [|by rewrite upload_pipeline_of, upload_pipeline_rejects].
  rewrite upload_pipeline_of, upload_pipeline_run by done.
  pose proof (cleanup_remote (base_name (filename up)) (route_type k) w) as Hrem.
  pose proof (cleanup_lookup_any (base_name (filename up)) (route_type k) w)
    as Hlook.
  pose proof (cleanup_run (base_name (filename up)) (route_type k) w) as Hrun.
  destruct (cleanup_old_artifacts _ _ w) as [w1 [[]|e1]]; cbn [fst snd] in *.
  { cbv zeta. repeat case_match; done. }
  intros [= ->]. split_and!; [done| |].
  - intros q x Hx. by destruct (Hlook q x Hx) as [?|[[=] _]].
  - cbv zeta in Hrun. unfold new_events.
    destruct (os.makedirs _ (fs w)) as [fs1 [[]|e1]].
    + destruct (os.makedirs _ fs1) as [fs2 [[]|e2]]; [done|].
      injection Hrun as -> _. cbn [trace]. rewrite drop_app_length.
      intros ev [->|[->|?%elem_of_nil]%elem_of_cons]%elem_of_cons;
        by eauto.
    + injection Hrun as -> _. cbn [trace]. rewrite drop_app_length.
      intros ev [->|?%elem_of_nil]%elem_of_cons; by eauto.
Qed.

(** X14.  The result routes validate nothing and touch no local file:
    for any file name, even one no upload route accepts, the handler
    never answers with the client error, and the local file system is as
    before. *)
Theorem results_accept_any_name (k : route) (f : string) (w : World R) :
  ~ rejected (results k f w).2
  /\ fs (results k f w).1 = fs w
  /\ ((results k f w).2
      = match (remote_fetch (report_filename f) (route_type k) (remote w)).2 with
        | inl what => Raises (RemoteError what)
        | inr report =>
            Returns (JSONResponse_new
              (JObj [("filename", JStr f); ("aggregated_report", report)])
              no_cache_headers)
        end).
Proof.
  assert (results k f w = results_pipeline remote_fetch (route_type k) f w)
    as -> by (by destruct k).
  rewrite results_pipeline_run. cbv zeta. cbn [fst snd fs].
  split_and!; try done.
  intros [detail H]. by destruct (remote_fetch _ _ _).2.
Qed.

End RoutesMore.

(** * The further properties at work *)

Section WitnessesMore.

Local Abbreviation upload :=
  (upload_handler Sample.upload Sample.trigger Sample.fetch).



Lemma cleanup_idempotent_witness :
  (cleanup_old_artifacts "mytoken" "evm" Sample.world).2 = Returns tt
  /\ exists w2,
       cleanup_old_artifacts "mytoken" "evm"
         (cleanup_old_artifacts "mytoken" "evm" Sample.world).1
       = (w2, Returns tt)
       /\ fs w2 = fs (cleanup_old_artifacts "mytoken" "evm" Sample.world).1.
Proof.
  assert (cleanup_old_artifacts "mytoken" "evm" Sample.world
          = ((cleanup_old_artifacts "mytoken" "evm" Sample.world).1, Returns tt))
    as Hrun by (vm_compute; reflexivity).
  split; [by rewrite Hrun|].
  exact (cleanup_idempotent "mytoken" "evm" Sample.world _ Hrun).
Defined.


Lemma cleanup_commutes_witness :
  exists v1 v2,
    cleanup_old_artifacts "other" "evm" Sample.world = (v1, Returns tt)
    /\ cleanup_old_artifacts "mytoken" "evm" v1 = (v2, Returns tt)
    /\ fs v2
       = fs (cleanup_old_artifacts "other" "evm"
               (cleanup_old_artifacts "mytoken" "evm" Sample.world).1).1.
Proof.
  assert (cleanup_old_artifacts "mytoken" "evm" Sample.world
          = ((cleanup_old_artifacts "mytoken" "evm" Sample.world).1, Returns tt))
    as Ha by (vm_compute; reflexivity).
  assert (cleanup_old_artifacts "other" "evm"
            (cleanup_old_artifacts "mytoken" "evm" Sample.world).1
          = ((cleanup_old_artifacts "other" "evm"
                (cleanup_old_artifacts "mytoken" "evm" Sample.world).1).1,
             Returns tt))
    as Hb by (vm_compute; reflexivity).
  exact (cleanup_commutes "mytoken" "other" "evm" Sample.world _ _ Ha Hb).
Defined.

Lemma directory_part_ignored_witness :
  Str.contains "/" "MyToken.sol" = false
  /\ tested_extension "a/b/MyToken.sol" = tested_extension "MyToken.sol"
  /\ report_filename "a/b/MyToken.sol" = report_filename "MyToken.sol".
Proof.
  split; [reflexivity|].
  destruct (directory_part_ignored "a/b" "MyToken.sol" eq_refl)
    as (H1 & _ & H3); [intros H; discriminate H..|].
  split; [exact H1|exact H3].
Defined.

Lemma accepted_name_decomposition_witness :
  tested_extension "a/My.Token.SOL" ∈ route_allowed Evm
  /\ exists d,
       "a/My.Token.SOL"
       = d +:+ pathlib.stem "a/My.Token.SOL"
           +:+ (posixpath.splitext "a/My.Token.SOL").2
       /\ pathlib.stem "a/My.Token.SOL" ≠ EmptyString.
Proof.
  assert (tested_extension "a/My.Token.SOL" ∈ route_allowed Evm) as H
    by (vm_compute; reflexivity).
  split; [exact H|].
  destruct (accepted_name_decomposition Evm "a/My.Token.SOL" H)
    as (d & Hd & _ & _ & Hs).
  by exists d.
Defined.

Lemma no_file_accepted_by_both_routes_witness :
  ~ rejected (upload Evm Sample.contract Sample.world).2
  /\ rejected (upload NonEvm Sample.contract Sample.empty_world).2.
Proof.
  assert (~ rejected (upload Evm Sample.contract Sample.world).2) as H.
  { intros [detail Hd]. vm_compute in Hd. discriminate Hd. }
  split; [exact H|].
  exact (proj1 (no_file_accepted_by_both_routes
                  Sample.upload Sample.trigger Sample.fetch
                  Sample.contract Sample.world Sample.empty_world) H).
Defined.

Lemma upload_without_extension_rejected_witness :
  all_chr "." "." = true
  /\ upload Evm {| filename := "dir/.sol"; file_bytes := [] |} Sample.world
     = (Sample.world, Raises (HTTPException 400 "File type  not allowed.")).
Proof.
  split; [reflexivity|].
  apply (upload_without_extension_rejected
           Sample.upload Sample.trigger Sample.fetch Evm
           {| filename := "dir/.sol"; file_bytes := [] |} Sample.world
           "dir/" "." "sol"); try reflexivity.
  right. by exists "dir".
Defined.

Lemma upload_creates_only_artifact_dirs_witness :
  fs Sample.empty_world !! ["test_summaries"; "evm"] = None
  /\ fs (upload Evm Sample.contract Sample.empty_world).1
       !! ["test_summaries"; "evm"] = Some Dir.
Proof.
  split; [reflexivity|].
  refine (proj2 (upload_creates_only_artifact_dirs
                   Sample.upload Sample.trigger Sample.fetch
                   Evm Sample.contract Sample.empty_world
                   ["test_summaries"; "evm"] eq_refl _)).
  exists Dir. vm_compute. reflexivity.
Defined.

Lemma failed_cleanup_stops_upload_witness :
  (upload Evm Sample.contract Sample.blocked_world).2
  = Raises (OSError NotADirectoryError ["uploaded_contracts"; "evm"])
  /\ remote (upload Evm Sample.contract Sample.blocked_world).1
     = remote Sample.blocked_world
  /\ fs (upload Evm Sample.contract Sample.blocked_world).1
       !! ["uploaded_contracts"] = Some File.
Proof.
  assert ((upload Evm Sample.contract Sample.blocked_world).2
          = Raises (OSError NotADirectoryError ["uploaded_contracts"; "evm"]))
    as H by (vm_compute; reflexivity).
  split; [exact H|].
  destruct (failed_cleanup_stops_upload
              Sample.upload Sample.trigger Sample.fetch
              Evm Sample.contract Sample.blocked_world _ _ H)
    as (Hr & Hf & _).
  split; [exact Hr|]. apply Hf. vm_compute. reflexivity.
Defined.

End WitnessesMore.
